(** * WalletConnect context: a shallow embedding of src/context/WalletConnect.tsx

    The React context provider of the repository wires three callbacks
    (connect, disconnect, mint) and two subscription handlers to an external
    wallet service, an external contract service and a toast utility.  This
    development embeds those callbacks as programs of a small state, trace and
    exception monad, and proves the properties the specification states about
    them.

    JavaScript numbers are IEEE 754 binary64 values: they are modelled by the
    primitive floats of the kernel, so that [0.1 * 3] evaluates here to the
    same double as in the browser. *)

From Stdlib Require Import ZArith QArith Qpower Floats String Ascii List Bool Lia.
From Stdlib Require Import DecimalString DecimalN DecimalPos.
From stdpp Require Import base gmap strings.

Import ListNotations.
Set Warnings "-inexact-float".
Local Open Scope Z_scope.

(** ** JavaScript numbers *)

Module JsNumber.

(** A JS [number]. *)
Definition number : Set := float.

(** [10 ** 18]: the power is exact, 10^18 = 5^18 * 2^18 fits in 53 bits. *)
Definition ten_pow_18 : number := 1e18%float.

(** *** Number::toString (ECMA-262, radix 10)

    For a positive finite [x] the standard takes integers [n], [k], [s] with
    [k >= 1], [10^(k-1) <= s < 10^k], such that [s * 10^(n-k)] reads back as
    [x] and [k] is as small as possible; among several [s] the one closest
    to [x].  Below the pair [(s, n - k)] is computed in exact rational
    arithmetic from the mantissa and exponent of [x]. *)

Definition pow2Q (e : Z) : Q := (inject_Z 2 ^ e)%Q.

Definition pow10Q (e : Z) : Q := (inject_Z 10 ^ e)%Q.

(** Value of the double with mantissa [m] and exponent [e]. *)
Definition valQ (m : positive) (e : Z) : Q := (inject_Z (Z.pos m) * pow2Q e)%Q.

(** The reals that round to [m * 2^e] (to nearest, ties to even) lie between
    the midpoints to its two neighbours; the lower gap is halved when [m] is
    the least normal mantissa. *)
Definition mid_hi (m : positive) (e : Z) : Q :=
  (inject_Z (2 * Z.pos m + 1) * pow2Q (e - 1))%Q.

Definition mid_lo (m : positive) (e : Z) : Q :=
  if (Z.pos m =? 2 ^ 52) && (-1074 <? e)
  then (inject_Z (4 * Z.pos m - 1) * pow2Q (e - 2))%Q
  else (inject_Z (2 * Z.pos m - 1) * pow2Q (e - 1))%Q.

Definition Qltb (a b : Q) : bool := negb (Qle_bool b a).

Definition reads_back (m : positive) (e : Z) (q : Q) : bool :=
  if Z.even (Z.pos m)
  then Qle_bool (mid_lo m e) q && Qle_bool q (mid_hi m e)
  else Qltb (mid_lo m e) q && Qltb q (mid_hi m e).

Definition Qfloor (q : Q) : Z := Qnum q / Z.pos (Qden q).
Definition Qceil (q : Q) : Z := - ((- Qnum q) / Z.pos (Qden q)).

(** Number of decimal digits of a non-negative integer (0 for 0). *)
Fixpoint ndigits_aux (fuel : nat) (z : Z) : Z :=
  match fuel with
  | O => 0
  | S f => if z <? 1 then 0 else 1 + ndigits_aux f (z / 10)
  end.

Definition ndigits (z : Z) : Z := ndigits_aux (S (Z.to_nat (Z.log2 z))) z.

(** The [n0] with [10^(n0-1) <= v < 10^n0], for [v > 0]. *)
Definition magnitude (v : Q) : Z :=
  if Qle_bool 1 v then ndigits (Qfloor v)
  else 1 - ndigits (Qceil (/ v) - 1).

Definition Qabs_diff (a b : Q) : Q := if Qle_bool a b then (b - a)%Q else (a - b)%Q.

(** The candidate with [k] digits: the multiples of [10^(n0-k)] just below
    and just above [v]; of those that read back, the closer one (the even
    one on a tie). *)
Definition candidate (m : positive) (e : Z) (n0 k : Z) : option (Z * Z) :=
  let v := valQ m e in
  let p := n0 - k in
  let lo := Qfloor (v * pow10Q (- p)) in
  let hi := lo + 1 in
  let qlo := (inject_Z lo * pow10Q p)%Q in
  let qhi := (inject_Z hi * pow10Q p)%Q in
  match reads_back m e qlo, reads_back m e qhi with
  | true, true =>
      let dlo := Qabs_diff v qlo in
      let dhi := Qabs_diff v qhi in
      if Qltb dlo dhi then Some (lo, p)
      else if Qltb dhi dlo then Some (hi, p)
      else if Z.even lo then Some (lo, p) else Some (hi, p)
  | true, false => Some (lo, p)
  | false, true => Some (hi, p)
  | false, false => None
  end.

Fixpoint shortest_from (fuel : nat) (m : positive) (e : Z) (n0 k : Z) : Z * Z :=
  match fuel with
  | O => (Qfloor (valQ m e * pow10Q (k - n0)), n0 - k)
  | S f =>
      match candidate m e n0 k with
      | Some sp => sp
      | None => shortest_from f m e n0 (k + 1)
      end
  end.

(** Strip the trailing zeros of [s], raising the exponent. *)
Fixpoint strip_zeros (fuel : nat) (s p : Z) : Z * Z :=
  match fuel with
  | O => (s, p)
  | S f => if (s mod 10 =? 0) && negb (s =? 0) then strip_zeros f (s / 10) (p + 1) else (s, p)
  end.

(** [(s, n - k)] of a positive finite double: seventeen digits always
    suffice, the fuel is never exhausted. *)
Definition shortest (m : positive) (e : Z) : Z * Z :=
  let '(s, p) := shortest_from 17 m e (magnitude (valQ m e)) 1 in
  strip_zeros 20 s p.

Definition digits_of (s : Z) : string := NilZero.string_of_uint (N.to_uint (Z.to_N s)).

Fixpoint zeros (n : nat) : string :=
  match n with
  | O => EmptyString
  | S n' => String "0" (zeros n')
  end.

(** First [n] characters, and the rest. *)
Fixpoint take (n : nat) (s : string) : string :=
  match n, s with
  | S n', String c s' => String c (take n' s')
  | _, _ => EmptyString
  end.

Fixpoint drop (n : nat) (s : string) : string :=
  match n, s with
  | S n', String _ s' => drop n' s'
  | _, _ => s
  end.

(** Steps 7 to 12 of Number::toString, from [s], [k] and [n]. *)
Definition format_positive (s p : Z) : string :=
  let ds := digits_of s in
  let k := Z.of_nat (String.length ds) in
  let n := p + k in
  if (k <=? n) && (n <=? 21) then ds +:+ zeros (Z.to_nat (n - k))
  else if (0 <? n) && (n <=? 21) then
    take (Z.to_nat n) ds +:+ "." +:+ drop (Z.to_nat n) ds
  else if (-6 <? n) && (n <=? 0) then
    "0." +:+ zeros (Z.to_nat (- n)) +:+ ds
  else
    let ex := n - 1 in
    let exs := (if 0 <=? ex then "+" else "-") +:+ digits_of (Z.abs ex) in
    if k =? 1 then ds +:+ "e" +:+ exs
    else take 1 ds +:+ "." +:+ drop 1 ds +:+ "e" +:+ exs.

Definition toString (x : number) : string :=
  match Prim2SF x with
  | S754_nan => "NaN"
  | S754_zero _ => "0"
  | S754_infinity false => "Infinity"
  | S754_infinity true => "-Infinity"
  | S754_finite sg m e =>
      let '(s, p) := shortest m e in
      (if sg then "-" else "") +:+ format_positive s p
  end.

(** The decimal [s * 10^p] that [toString] prints for a finite number. *)
Definition decimal (x : number) : option (Z * Z) :=
  match Prim2SF x with
  | S754_zero _ => Some (0, 0)
  | S754_finite sg m e =>
      let '(s, p) := shortest m e in
      Some (if sg then - s else s, p)
  | S754_infinity _ | S754_nan => None
  end.

End JsNumber.

(** ** bignumber.js

    Modelled from the library's documented behaviour: the arbitrary-precision
    decimal type the mint workflow uses for the transaction value.  A finite
    BigNumber is an integer coefficient and a power of ten; the coefficient
    carries no trailing zeros.  The exponent limits of the library (1e9 in
    magnitude) lie far outside what three doubles can produce and are left
    out. *)

Module BigNumber.

Inductive t : Set :=
| NaN
| Infinity (negative : bool)
| Finite (c e : Z).

Definition normalize (c e : Z) : t :=
  if c =? 0 then Finite 0 0
  else let '(c', e') := JsNumber.strip_zeros (S (Z.to_nat (Z.log2 (Z.abs c)))) c e in
       Finite c' e'.

Definition digit_of_ascii (a : ascii) : option Z :=
  let n := Z.of_nat (nat_of_ascii a) in
  if (48 <=? n) && (n <=? 57) then Some (n - 48) else None.

(** Value of a string of decimal digits, continuing from [acc]. *)
Fixpoint read_digits (acc : Z) (s : string) : option Z :=
  match s with
  | EmptyString => Some acc
  | String a s' =>
      match digit_of_ascii a with
      | Some d => read_digits (10 * acc + d) s'
      | None => None
      end
  end.

(** Split at the first character satisfying [f]. *)
Fixpoint split_at (f : ascii -> bool) (s : string) : string * option string :=
  match s with
  | EmptyString => (EmptyString, None)
  | String a s' =>
      if f a then (EmptyString, Some s')
      else let '(l, r) := split_at f s' in (String a l, r)
  end.

Definition is_e (a : ascii) : bool := Ascii.eqb a "e" || Ascii.eqb a "E".
Definition is_dot (a : ascii) : bool := Ascii.eqb a ".".

Definition nonempty (s : string) : bool :=
  match s with
  | EmptyString => false
  | String _ _ => true
  end.

(** An optional sign and at least one digit. *)
Definition read_exponent (s : string) : option Z :=
  match s with
  | EmptyString => None
  | String a s' =>
      if Ascii.eqb a "-" then
        if nonempty s' then option_map Z.opp (read_digits 0 s') else None
      else if Ascii.eqb a "+" then
        if nonempty s' then read_digits 0 s' else None
      else read_digits 0 s
  end.

(** Digits with an optional fraction, or a fraction alone: the coefficient
    and the number of fraction digits. *)
Definition read_mantissa (s : string) : option (Z * Z) :=
  match split_at is_dot s with
  | (ip, None) =>
      if nonempty ip then option_map (fun v => (v, 0)) (read_digits 0 ip) else None
  | (ip, Some fp) =>
      if nonempty ip || nonempty fp then
        match read_digits 0 ip with
        | Some v => option_map (fun c => (c, Z.of_nat (String.length fp))) (read_digits v fp)
        | None => None
        end
      else None
  end.

Definition of_unsigned (s : string) : option (Z * Z) :=
  let '(ms, es) := split_at is_e s in
  match read_mantissa ms, es with
  | Some (c, fl), None => Some (c, - fl)
  | Some (c, fl), Some es' =>
      match read_exponent es' with
      | Some ex => Some (c, ex - fl)
      | None => None
      end
  | None, _ => None
  end.

(** [new BigNumber(str)]; a string that is no numeral gives NaN. *)
Definition of_string (s : string) : t :=
  if String.eqb s "Infinity" then Infinity false
  else if String.eqb s "-Infinity" then Infinity true
  else
    match s with
    | EmptyString => NaN
    | String a s' =>
        if Ascii.eqb a "-" then
          match of_unsigned s' with
          | Some (c, e) => normalize (- c) e
          | None => NaN
          end
        else
          match of_unsigned s with
          | Some (c, e) => normalize c e
          | None => NaN
          end
    end.

(** [new BigNumber(n)] for a JS number: the library reads [String(n)]. *)
Definition of_number (x : JsNumber.number) : t := of_string (JsNumber.toString x).

(** [x.times(y)]: the product of two finite values is exact. *)
Definition times (x y : t) : t :=
  match x, y with
  | Finite c1 e1, Finite c2 e2 => normalize (c1 * c2) (e1 + e2)
  | NaN, _ | _, NaN => NaN
  | Infinity n, Finite c _ | Finite c _, Infinity n =>
      if c =? 0 then NaN else Infinity (xorb n (c <? 0))
  | Infinity n1, Infinity n2 => Infinity (xorb n1 n2)
  end.

(** [toFixedPoint(str, e, '0')] of the library, on the coefficient digits
    [ds] and the exponent [ne] of the leading digit. *)
Definition toFixedPoint (ds : string) (ne : Z) : string :=
  let len := Z.of_nat (String.length ds) in
  if ne <? 0 then "0." +:+ JsNumber.zeros (Z.to_nat (- ne - 1)) +:+ ds
  else if len <? ne + 1 then ds +:+ JsNumber.zeros (Z.to_nat (ne + 1 - len))
  else if ne + 1 <? len then
    JsNumber.take (Z.to_nat (ne + 1)) ds +:+ "." +:+ JsNumber.drop (Z.to_nat (ne + 1)) ds
  else ds.

(** [x.toFixed()] without arguments: plain notation, no rounding. *)
Definition toFixed (x : t) : string :=
  match x with
  | NaN => "NaN"
  | Infinity false => "Infinity"
  | Infinity true => "-Infinity"
  | Finite c e =>
      let ds := JsNumber.digits_of (Z.abs c) in
      let str := toFixedPoint ds (e + Z.of_nat (String.length ds) - 1) in
      if c <? 0 then "-" +:+ str else str
  end.

(** The rational a finite BigNumber denotes. *)
Definition toQ (c e : Z) : Q := (inject_Z c * JsNumber.pow10Q e)%Q.

End BigNumber.

(** ** The collaborators and the state of the provider *)

(** [type IProviders = 'MetaMask' | 'WalletConnect'] *)
Inductive IProviders : Set := MetaMask | WalletConnect.

(** The objects stored in [account] are untyped in the source; the fields the
    code reads are [address], [type] and [name], each of which may be
    missing.  The empty object is what [setAccount] stores on disconnect. *)
Record AccountInfo : Set := mkAccountInfo {
  address : option string;
  type : option string;
  name : option string
}.

Definition empty_object : AccountInfo := mkAccountInfo None None None.

(** The handle returned by [subscribe]. *)
Definition Subscription : Set := nat.

(** A thrown value or the reason of a rejected promise. *)
Inductive Exn : Set :=
| TypeError (message : string)
| Rejection (reason : string).

(** What an awaited call settles to. *)
Inductive Outcome (A : Type) : Type :=
| Returned (a : A)
| Thrown (e : Exn).
Arguments Returned {A} a.
Arguments Thrown {A} e.

(** The second argument of [notify]. *)
Inductive Severity : Set := error | info | success.

(** The first argument of [notify]: a text or one of the components. *)
Inductive Message : Set :=
| Text (s : string)
| OfferToBuy (tokensLeft amountOfTokensToMint : JsNumber.number)
| TxHash (txId : string)
| MintSuccess_multiply
| MintSuccess_single (nftId : string).

(** The only callback handed to [notify] is the closure [() => mint(tokensLeft)].
    It captures the [mint] of the render that created it, hence that render's
    [account] and [pricePerToken]. *)
Inductive Callback : Set :=
| RetryMint (account : option AccountInfo) (pricePerToken tokensLeft : JsNumber.number).

(** The read methods of the NFT contract that the workflow calls. *)
Inductive ReadMethod : Set := Paused | AllowedToExist | TotalSupply.

(** The error object handed to the subscription's error handler. *)
Record WalletError : Set := mkWalletError {
  code : option JsNumber.number;
  description : string
}.

(** Everything the callbacks do to the outside, in program order.  The wallet
    service, the contract service, [notify] and the browser are not among the
    sources: a call to one of them is recorded as an event, and what it
    answers is a parameter of the run ([WalletEnv] and [MintEnv] below). *)
Inductive Event : Set :=
| Notify (content : Message) (severity : option Severity) (duration : option Z)
         (onClick : option Callback)
| ConsoleError (err : WalletError)
| ConsoleLog (e : Exn)
| GetContract
| Call (method : ReadMethod)
| GetMaticBalance (addr : string)
| Send_buy (amount : JsNumber.number) (from value : string)
| InitWalletConnect (provider : IProviders)
| ResetWeb3
| GetAccount
| EventSubscribe
| ResetConnect
| Unsubscribe (sub : Subscription)
| SetAccount (a : AccountInfo)
| SetCurrentSubscription (sub : Subscription)
| SetPricePerToken (p : JsNumber.number)
| SetIsMinting (b : bool).

(** The four [useState] cells and the browser's [localStorage]. *)
Record State : Type := mkState {
  account : option AccountInfo;
  currentSubsriber : option Subscription;
  pricePerToken : JsNumber.number;
  isMinting : bool;
  localStorage : gmap string string
}.

(** The state of a freshly mounted provider. *)
Definition initial (storage : gmap string string) : State :=
  mkState None None 0%float false storage.

(** ** The monad of the callbacks: state, trace and exceptions *)

Record Result (A : Type) : Type := mkResult {
  outcome : Outcome A;
  final : State;
  events : list Event
}.
Arguments mkResult {A} outcome final events.
Arguments outcome {A} r.
Arguments final {A} r.
Arguments events {A} r.

Definition M (A : Type) : Type := State -> Result A.

#[global] Instance M_ret : MRet M := fun A a st => mkResult (Returned a) st [].

#[global] Instance M_bind : MBind M := fun A B k m st =>
  match m st with
  | mkResult (Returned a) st' evs =>
      match k a st' with
      | mkResult o st'' evs' => mkResult o st'' (evs ++ evs')
      end
  | mkResult (Thrown e) st' evs => mkResult (Thrown e) st' evs
  end.

Definition throw {A : Type} (e : Exn) : M A := fun st => mkResult (Thrown e) st [].

(** [try { body } catch (error) { handler }] *)
Definition try_catch {A : Type} (body : M A) (handler : Exn -> M A) : M A := fun st =>
  match body st with
  | mkResult (Returned a) st' evs => mkResult (Returned a) st' evs
  | mkResult (Thrown e) st' evs =>
      match handler e st' with
      | mkResult o st'' evs' => mkResult o st'' (evs ++ evs')
      end
  end.

Definition emit (ev : Event) : M unit := fun st => mkResult (Returned tt) st [ev].

(** [await f(...)]: the call is made, then it returns or throws. *)
Definition await {A : Type} (ev : Event) (o : Outcome A) : M A := fun st =>
  mkResult o st [ev].

(** A pending promise settles: no new call is made. *)
Definition settle {A : Type} (o : Outcome A) : M A := fun st => mkResult o st [].

Definition notify (content : Message) (severity : option Severity)
    (duration : option Z) (onClick : option Callback) : M unit :=
  emit (Notify content severity duration onClick).

Definition setAccount (a : AccountInfo) : M unit := fun st =>
  mkResult (Returned tt)
    (mkState (Some a) (currentSubsriber st) (pricePerToken st) (isMinting st) (localStorage st))
    [SetAccount a].

Definition setCurrentSubscription (sub : Subscription) : M unit := fun st =>
  mkResult (Returned tt)
    (mkState (account st) (Some sub) (pricePerToken st) (isMinting st) (localStorage st))
    [SetCurrentSubscription sub].

Definition setPricePerToken (p : JsNumber.number) : M unit := fun st =>
  mkResult (Returned tt)
    (mkState (account st) (currentSubsriber st) p (isMinting st) (localStorage st))
    [SetPricePerToken p].

Definition setIsMinting (b : bool) : M unit := fun st =>
  mkResult (Returned tt)
    (mkState (account st) (currentSubsriber st) (pricePerToken st) b (localStorage st))
    [SetIsMinting b].

Definition localStorage_setItem (key value : string) : M unit := fun st =>
  mkResult (Returned tt)
    (mkState (account st) (currentSubsriber st) (pricePerToken st) (isMinting st)
       (<[key := value]> (localStorage st)))
    [].

Definition localStorage_removeItem (key : string) : M unit := fun st =>
  mkResult (Returned tt)
    (mkState (account st) (currentSubsriber st) (pricePerToken st) (isMinting st)
       (delete key (localStorage st)))
    [].

(** ** The callbacks of WalletConnect.tsx *)

(** [str.slice(0, 5)] and [str.slice(-5)] *)
Definition slice_0_5 (str : string) : string := JsNumber.take 5 str.
Definition slice_m5 (str : string) : string := JsNumber.drop (String.length str - 5) str.

(** The string [account?.address] when it is truthy: the account is defined,
    has an address, and the address is not the empty string. *)
Definition truthy_address (account : option AccountInfo) : option string :=
  match account with
  | Some a =>
      match address a with
      | Some (String c s) => Some (String c s)
      | _ => None
      end
  | None => None
  end.

(** What the wallet service answers during one call of [connect]. *)
Record WalletEnv : Type := mkWalletEnv {
  window_ethereum : bool;
  initWalletConnect : IProviders -> Outcome bool;
  getAccount : Outcome AccountInfo;
  subscribe : Subscription
}.

(** [result.events.Transfer] of a receipt: an array of events, one event
    with its token id, or nothing usable (reading through it throws). *)
Inductive Transfer : Set :=
| Transfer_array
| Transfer_event (tokenId : string)
| Transfer_undefined.

(** What the contract and the wallet answer during one call of [mint]. *)
Record MintEnv : Type := mkMintEnv {
  paused : Outcome bool;
  allowedToExist : Outcome JsNumber.number;
  totalSupply : Outcome JsNumber.number;
  getMaticBalance : string -> Outcome JsNumber.number;
  transactionHash : option string;
  receipt : Outcome Transfer
}.

Section Provider.

(** [polygonProvider.network.chainName], from the configuration module. *)
Variable chainName : string.

Definition subscriberSuccess (data : AccountInfo) : M unit :=
  match name data with
  | Some "accountsChanged"%string =>
      setAccount data;;
      match address data with
      | Some a =>
          notify (Text ("Wallet changed: " +:+ slice_0_5 a +:+ "..." +:+ slice_m5 a))
            None None None
      | None => throw (TypeError "Cannot read properties of undefined (reading 'slice')")
      end
  | _ => mret tt
  end.

Definition subscriberError (err : WalletError) : M unit :=
  emit (ConsoleError err);;
  match code err with
  | Some c =>
      if PrimFloat.eqb c 4 then
        emit ResetConnect;;
        notify (Text ("You changed to wrong network. Please choose " +:+ chainName))
          (Some error) None None;;
        setAccount empty_object
      else mret tt
  | None => mret tt
  end.

Definition connect (env : WalletEnv) (provider : IProviders) : M unit :=
  (match provider with
   | MetaMask =>
       if negb (window_ethereum env)
       then notify (Text "Please install MetaMask!") (Some error) None None
       else mret tt
   | WalletConnect => mret tt
   end);;
  connected ← await (InitWalletConnect provider) (initWalletConnect env provider);
  if connected : bool then
    try_catch
      (emit ResetWeb3;;
       accountInfo ← await GetAccount (getAccount env);
       match address accountInfo with
       | None => throw (TypeError "Cannot read properties of undefined (reading 'slice')")
       | Some a =>
           notify (Text ("Wallet connected: " +:+ slice_0_5 a +:+ "..." +:+ slice_m5 a))
             (Some success) None None;;
           (match a with
            | String _ _ =>
                setAccount accountInfo;;
                localStorage_setItem "providerType" (default "undefined" (type accountInfo))
            | EmptyString => mret tt
            end);;
           emit EventSubscribe;;
           setCurrentSubscription (subscribe env)
       end)
      (fun e => emit (ConsoleLog e))
  else mret tt.

(** [disconnect] is rebuilt whenever [currentSubsriber] changes and reads
    the value of its render. *)
Definition disconnect (currentSubsriber : option Subscription) : M unit :=
  setAccount empty_object;;
  localStorage_removeItem "providerType";;
  (match currentSubsriber with
   | Some sub => emit (Unsubscribe sub)
   | None => mret tt
   end);;
  emit ResetConnect.

(** The value sent with the buy transaction. *)
Definition buy_value (amountOfTokensToMint pricePerToken : JsNumber.number) : string :=
  BigNumber.toFixed
    (BigNumber.times
       (BigNumber.times
          (BigNumber.of_string (JsNumber.toString amountOfTokensToMint))
          (BigNumber.of_number pricePerToken))
       (BigNumber.of_number JsNumber.ten_pow_18)).

(** The [then] callback of the buy transaction. *)
Definition on_receipt (result : Transfer) : M unit :=
  match result with
  | Transfer_array => notify MintSuccess_multiply (Some success) (Some 10000) None
  | Transfer_event tokenId =>
      notify (MintSuccess_single tokenId) (Some success) (Some 10000) None
  | Transfer_undefined =>
      throw (TypeError "Cannot read properties of undefined (reading 'returnValues')")
  end.

(** [mint] is rebuilt whenever [pricePerToken] or [account] change and reads
    the values of its render: they are its first two arguments. *)
Definition mint (account : option AccountInfo) (pricePerToken : JsNumber.number)
    (env : MintEnv) (amountOfTokensToMint : JsNumber.number) : M unit :=
  match truthy_address account with
  | None => notify (Text "Please connect your wallet!") None None None
  | Some addr =>
      setIsMinting true;;
      emit GetContract;;
      isMintingPaused ← await (Call Paused) (paused env);
      if isMintingPaused : bool then
        notify (Text "Minting is paused now!") None None None;;
        setIsMinting false
      else
        allowedToExist ← await (Call AllowedToExist) (allowedToExist env);
        totalSupply ← await (Call TotalSupply) (totalSupply env);
        let tokensLeft := (allowedToExist - totalSupply)%float in
        if (tokensLeft <? amountOfTokensToMint)%float then
          (if (tokensLeft <=? 0)%float then
             notify (Text "All NFTs have been sold!") None None None
           else
             notify (OfferToBuy tokensLeft amountOfTokensToMint) (Some info) (Some 15000)
               (Some (RetryMint account pricePerToken tokensLeft)));;
          setIsMinting false
        else
          userBalance ← await (GetMaticBalance addr) (getMaticBalance env addr);
          if (userBalance <=? pricePerToken * amountOfTokensToMint)%float then
            notify (Text ("You can't mint " +:+ JsNumber.toString amountOfTokensToMint
                          +:+ " tokens, as you don't have enough money"))
              None None None;;
            setIsMinting false
          else
            try_catch
              (emit (Send_buy amountOfTokensToMint addr
                       (buy_value amountOfTokensToMint pricePerToken));;
               (match transactionHash env with
                | Some h => notify (TxHash h) (Some info) (Some 10000) None
                | None => mret tt
                end);;
               result ← settle (receipt env);
               on_receipt result;;
               setIsMinting false)
              (fun _ => setIsMinting false)
  end.

(** Clicking the offer runs the captured closure. *)
Definition run_callback (cb : Callback) (env : MintEnv) : M unit :=
  match cb with
  | RetryMint account pricePerToken tokensLeft => mint account pricePerToken env tokensLeft
  end.

(** The [then] of the price query in [useEffect]. *)
Definition on_price (price : JsNumber.number) : M unit :=
  setPricePerToken (price / JsNumber.ten_pow_18)%float.

End Provider.

(** ** Observations on a run *)

Definition is_buy (ev : Event) : bool :=
  match ev with
  | Send_buy _ _ _ => true
  | _ => false
  end.

(** Calls that reach the contract service. *)
Definition is_contract_call (ev : Event) : bool :=
  match ev with
  | GetContract | Call _ | Send_buy _ _ _ => true
  | _ => false
  end.

Definition is_setter (ev : Event) : bool :=
  match ev with
  | SetAccount _ | SetCurrentSubscription _ | SetPricePerToken _ | SetIsMinting _ => true
  | _ => false
  end.

Definition offers_retry (ev : Event) : bool :=
  match ev with
  | Notify _ _ _ (Some _) => true
  | _ => false
  end.

Definition is_error_notification (ev : Event) : bool :=
  match ev with
  | Notify _ (Some error) _ _ => true
  | _ => false
  end.

Definition is_notification (ev : Event) : bool :=
  match ev with
  | Notify _ _ _ _ => true
  | _ => false
  end.

Definition is_success_notification (ev : Event) : bool :=
  match ev with
  | Notify _ (Some success) _ _ => true
  | _ => false
  end.

(** Setters of the cells that [mint] has no business with. *)
Definition is_foreign_setter (ev : Event) : bool :=
  match ev with
  | SetAccount _ | SetCurrentSubscription _ | SetPricePerToken _ => true
  | _ => false
  end.

(** Number of toasts of a run. *)
Definition toasts (evs : list Event) : nat := length (List.filter is_notification evs).

(** The text of the insufficient-funds toast. *)
Definition not_enough_money (amountOfTokensToMint : JsNumber.number) : Message :=
  Text ("You can't mint " +:+ JsNumber.toString amountOfTokensToMint
        +:+ " tokens, as you don't have enough money").

(** ** Concrete runs *)

Module Examples.

Definition alice_address : string := "0x71C7656EC7ab88b098defB751B7401B5f6d8976F".

Definition alice : AccountInfo :=
  mkAccountInfo (Some alice_address) (Some "MetaMask"%string) None.

(** The double nearest to 0.1, which is what [1e17 / 10 ** 18] evaluates to. *)
Definition price_0_1 : JsNumber.number := 0.1%float.

(** A contract and wallet that answer every query, and a mint of one token
    that succeeds with token id 7. *)
Definition answers (isPaused : bool) (allowed total balance : JsNumber.number) : MintEnv :=
  mkMintEnv (Returned isPaused) (Returned allowed) (Returned total)
    (fun _ => Returned balance)
    (Some "0x9fc76417374aa880d4449a1f7f31ec597f00b1f6f3dd2d66f4c9c6c445836d8b"%string)
    (Returned (Transfer_event "7")).

Arguments answers isPaused (allowed total balance)%_float.

(** The node rejects the paused query. *)
Definition paused_query_fails : MintEnv :=
  mkMintEnv (Thrown (Rejection "Internal JSON-RPC error."))
    (Returned 100%float) (Returned 10%float) (fun _ => Returned 5%float)
    None (Returned (Transfer_event "7")).

(** A provider that was connected through MetaMask. *)
Definition connected : State :=
  mkState (Some alice) (Some 1%nat) price_0_1 false
    {[ "providerType"%string := "MetaMask"%string ]}.

Definition wrong_network : WalletError :=
  mkWalletError (Some 4%float) "Wrong network".

Definition no_metamask : WalletEnv :=
  mkWalletEnv false (fun _ => Returned false) (Returned alice) 1%nat.

(** A browser with MetaMask where the wallet accepts and answers with alice;
    the subscription made gets the handle 7. *)
Definition metamask_accepts : WalletEnv :=
  mkWalletEnv true (fun _ => Returned true) (Returned alice) 7%nat.

(** The wallet accepts, then the account query fails. *)
Definition account_query_fails : WalletEnv :=
  mkWalletEnv true (fun _ => Returned true) (Thrown (Rejection "User closed modal")) 7%nat.

(** The wallet service itself fails to initialise. *)
Definition init_fails : WalletEnv :=
  mkWalletEnv true (fun _ => Thrown (Rejection "No provider")) (Returned alice) 7%nat.

(** The buy transaction is sent, gets a hash, and is reverted. *)
Definition buy_reverts : MintEnv :=
  mkMintEnv (Returned false) (Returned 100%float) (Returned 10%float)
    (fun _ => Returned 5%float)
    (Some "0x9fc76417374aa880d4449a1f7f31ec597f00b1f6f3dd2d66f4c9c6c445836d8b"%string)
    (Thrown (Rejection "Transaction has been reverted by the EVM")).

(** Five tokens are minted at once: the receipt holds an array of transfers. *)
Definition buy_many : MintEnv :=
  mkMintEnv (Returned false) (Returned 100%float) (Returned 10%float)
    (fun _ => Returned 5%float) None (Returned Transfer_array).

(** The wallet reports that the user switched accounts. *)
Definition bob_address : string := "0x2B5AD5c4795c026514f8317c7a215E218DcCD6cF".

Definition accounts_changed : AccountInfo :=
  mkAccountInfo (Some bob_address) None (Some "accountsChanged"%string).

Definition user_rejected : WalletError :=
  mkWalletError (Some 4001%float) "User rejected the request".

End Examples.

(** ** Numerals

    What the proofs about the printed value need: strings of digits, the
    Horner value of a numeral of the Standard Library, and the normal form of
    a BigNumber. *)

Fixpoint all_digits (s : string) : bool :=
  match s with
  | EmptyString => true
  | String a s' =>
      match BigNumber.digit_of_ascii a with
      | Some _ => all_digits s'
      | None => false
      end
  end.

(** Horner evaluation of a decimal numeral of the Standard Library. *)
Fixpoint uint_value (acc : Z) (d : Decimal.uint) : Z :=
  match d with
  | Decimal.Nil => acc
  | Decimal.D0 l => uint_value (10 * acc + 0) l
  | Decimal.D1 l => uint_value (10 * acc + 1) l
  | Decimal.D2 l => uint_value (10 * acc + 2) l
  | Decimal.D3 l => uint_value (10 * acc + 3) l
  | Decimal.D4 l => uint_value (10 * acc + 4) l
  | Decimal.D5 l => uint_value (10 * acc + 5) l
  | Decimal.D6 l => uint_value (10 * acc + 6) l
  | Decimal.D7 l => uint_value (10 * acc + 7) l
  | Decimal.D8 l => uint_value (10 * acc + 8) l
  | Decimal.D9 l => uint_value (10 * acc + 9) l
  end.

(** The coefficient of a BigNumber has no trailing zero; zero is [0e0]. *)
Definition normal (c e : Z) : Prop := (c = 0 /\ e = 0)%Z \/ (c mod 10 <> 0)%Z.

(** ** Comparisons of doubles *)



(** ** What the model of Number::toString prints

    The outputs below are those of a JavaScript engine. *)

Example toString_samples :
  JsNumber.toString (0.1 + 0.2)%float = "0.30000000000000004"%string
  /\ JsNumber.toString (1 / 3)%float = "0.3333333333333333"%string
  /\ JsNumber.toString (4.35 * 100)%float = "434.99999999999994"%string
  /\ JsNumber.toString 1152921504606846976%float = "1152921504606847000"%string
  /\ JsNumber.toString 1e21%float = "1e+21"%string
  /\ JsNumber.toString 1e23%float = "1e+23"%string
  /\ JsNumber.toString 0.000001%float = "0.000001"%string
  /\ JsNumber.toString 0.0000001%float = "1e-7"%string
  /\ JsNumber.toString 1.5e-7%float = "1.5e-7"%string
  /\ JsNumber.toString (-2.5)%float = "-2.5"%string
  /\ JsNumber.toString (0 / 0)%float = "NaN"%string.
Proof. repeat split; vm_compute; reflexivity. Qed.

(** ** The monad laws *)

Lemma bind_ret_l {A B : Type} (a : A) (k : A -> M B) (st : State) :
  (mret a ≫= k) st = k a st.
Proof.
  unfold mbind, M_bind, mret, M_ret. now destruct (k a st).
Qed.

Lemma bind_ret_r {A : Type} (m : M A) (st : State) :
  (m ≫= mret) st = m st.
Proof.
  unfold mbind, M_bind. destruct (m st) as [[a | e] st' evs]; cbn; [ | reflexivity ].
  now rewrite app_nil_r.
Qed.

Lemma bind_assoc {A B C : Type} (m : M A) (k : A -> M B) (h : B -> M C) (st : State) :
  ((m ≫= k) ≫= h) st = (m ≫= (fun a => k a ≫= h)) st.
Proof.
  unfold mbind, M_bind. destruct (m st) as [[a | e] st' evs]; cbn; [ | reflexivity ].
  destruct (k a st') as [[b | e] st'' evs']; cbn; [ | reflexivity ].
  destruct (h b st'') as [o st3 evs3]. now rewrite app_assoc.
Qed.

(** ** The mint workflow *)

#[global] Arguments buy_value : simpl never.
#[global] Arguments JsNumber.toString : simpl never.
#[global] Arguments truthy_address : simpl never.

(** Case analysis on whatever the run is stuck on: an answer of the
    environment, a comparison of doubles, the captured account. *)
Ltac innermost x :=
  lazymatch x with
  | context [match _ with _ => _ end] => fail
  | _ => idtac
  end.

Ltac step_run :=
  match goal with
  | |- context [match ?x with _ => _ end] => innermost x; destruct x eqn:?; cbn in *
  | H : context [match ?x with _ => _ end] |- _ => innermost x; destruct x eqn:?; cbn in *
  end.

Ltac unfold_run :=
  unfold mint, connect, disconnect, subscriberError, on_receipt, try_catch,
    mbind, M_bind, mret, M_ret, await, settle, emit, notify, throw, setIsMinting,
    setAccount, setCurrentSubscription, localStorage_setItem, localStorage_removeItem
    in *; cbn in *.

(** Every buy transaction a run of [mint] submits is for the requested
    amount, from the connected address, with the BigNumber value. *)
Lemma mint_buy_inv (account : option AccountInfo) (price : JsNumber.number)
    (env : MintEnv) (amt : JsNumber.number) (st : State) (n : JsNumber.number)
    (f v : string) :
  In (Send_buy n f v) (events (mint account price env amt st)) ->
  n = amt /\ truthy_address account = Some f /\ v = buy_value amt price.
Proof.
  intros H. destruct env as [p a t b h r].
  unfold_run.
  repeat step_run;
    repeat match goal with
      | H : _ \/ _ |- _ => destruct H
      | H : False |- _ => destruct H
      end; try discriminate;
    match goal with
    | H : Send_buy _ _ _ = Send_buy _ _ _ |- _ => injection H as <- <- <-; auto
    end.
Qed.

(** C7. A call of mint made while no account is connected (the account is
    undefined, has no address, or has the empty address) shows the prompt to
    connect the wallet and does nothing else: no contract method is called. *)
Theorem mint_not_connected_prompts (account : option AccountInfo)
    (price : JsNumber.number) (env : MintEnv) (amt : JsNumber.number) (st : State) :
  truthy_address account = None ->
  events (mint account price env amt st)
    = [Notify (Text "Please connect your wallet!") None None None]
  /\ existsb is_contract_call (events (mint account price env amt st)) = false.
Proof.
  intros H. unfold mint. rewrite H. split; reflexivity.
Qed.

Lemma mint_not_connected_prompts_witness :
  truthy_address (Some empty_object) = None
  /\ events (mint (Some empty_object) Examples.price_0_1
               (Examples.answers false 100 10 5) 3%float (initial ∅))
     = [Notify (Text "Please connect your wallet!") None None None]
  /\ existsb is_contract_call
       (events (mint (Some empty_object) Examples.price_0_1
                  (Examples.answers false 100 10 5) 3%float (initial ∅))) = false.
Proof.
  split; [ reflexivity | ].
  apply (mint_not_connected_prompts (Some empty_object) Examples.price_0_1
           (Examples.answers false 100 10 5) 3%float (initial ∅)).
  reflexivity.
Defined.

(** C9. A call of mint made while no account is connected leaves the whole
    state as it was (account, price, subscription handle, in-progress flag,
    storage) and calls no state setter: isMinting is never set to true. *)
Theorem mint_not_connected_frame (account : option AccountInfo)
    (price : JsNumber.number) (env : MintEnv) (amt : JsNumber.number) (st : State) :
  truthy_address account = None ->
  final (mint account price env amt st) = st
  /\ existsb is_setter (events (mint account price env amt st)) = false
  /\ ~ In (SetIsMinting true) (events (mint account price env amt st))
  /\ outcome (mint account price env amt st) = Returned tt.
Proof.
  intros H. unfold mint. rewrite H. cbn.
  repeat split; try reflexivity.
  intros [E | []]. discriminate E.
Qed.

Lemma mint_not_connected_frame_witness :
  final (mint None Examples.price_0_1 (Examples.answers false 100 10 5) 3%float
           Examples.connected) = Examples.connected
  /\ existsb is_setter
       (events (mint None Examples.price_0_1 (Examples.answers false 100 10 5) 3%float
                  Examples.connected)) = false
  /\ ~ In (SetIsMinting true)
         (events (mint None Examples.price_0_1 (Examples.answers false 100 10 5) 3%float
                    Examples.connected))
  /\ outcome (mint None Examples.price_0_1 (Examples.answers false 100 10 5) 3%float
                Examples.connected) = Returned tt.
Proof.
  apply (mint_not_connected_frame None Examples.price_0_1
           (Examples.answers false 100 10 5) 3%float Examples.connected).
  reflexivity.
Defined.

(** C6. When the paused query answers true, no buy transaction is submitted;
    with a connected account the run is exactly: flag set, contract bound,
    paused queried, the paused toast, flag reset; no other contract call
    follows the query. *)
Theorem mint_paused_aborts (account : option AccountInfo)
    (price : JsNumber.number) (env : MintEnv) (amt : JsNumber.number) (st : State) :
  paused env = Returned true ->
  existsb is_buy (events (mint account price env amt st)) = false
  /\ forall addr, truthy_address account = Some addr ->
       events (mint account price env amt st)
         = [SetIsMinting true; GetContract; Call Paused;
            Notify (Text "Minting is paused now!") None None None;
            SetIsMinting false]
       /\ isMinting (final (mint account price env amt st)) = false
       /\ outcome (mint account price env amt st) = Returned tt.
Proof.
  intros Hp. split.
  - unfold mint. destruct (truthy_address account) as [addr | ]; [ | reflexivity ].
    unfold_run. now rewrite Hp.
  - intros addr Ha. unfold mint. rewrite Ha. unfold_run. rewrite Hp. cbn. auto.
Qed.

Lemma mint_paused_aborts_witness :
  existsb is_buy
    (events (mint (Some Examples.alice) Examples.price_0_1
               (Examples.answers true 100 10 5) 3%float (initial ∅))) = false
  /\ forall addr, truthy_address (Some Examples.alice) = Some addr ->
       events (mint (Some Examples.alice) Examples.price_0_1
                 (Examples.answers true 100 10 5) 3%float (initial ∅))
         = [SetIsMinting true; GetContract; Call Paused;
            Notify (Text "Minting is paused now!") None None None;
            SetIsMinting false]
       /\ isMinting (final (mint (Some Examples.alice) Examples.price_0_1
                              (Examples.answers true 100 10 5) 3%float (initial ∅)))
          = false
       /\ outcome (mint (Some Examples.alice) Examples.price_0_1
                     (Examples.answers true 100 10 5) 3%float (initial ∅))
          = Returned tt.
Proof.
  apply (mint_paused_aborts (Some Examples.alice) Examples.price_0_1
           (Examples.answers true 100 10 5) 3%float (initial ∅)).
  reflexivity.
Defined.



(** C4. When the remaining supply is zero or negative and the requested
    amount exceeds it, the sold-out toast is shown, no toast carries a retry
    callback, and the run ends without a buy transaction. *)
Theorem mint_sold_out (account : option AccountInfo)
    (price : JsNumber.number) (env : MintEnv) (amt : JsNumber.number) (st : State)
    (addr : string) (a t : JsNumber.number) :
  truthy_address account = Some addr ->
  paused env = Returned false ->
  allowedToExist env = Returned a ->
  totalSupply env = Returned t ->
  (a - t <? amt)%float = true ->
  (a - t <=? 0)%float = true ->
  events (mint account price env amt st)
    = [SetIsMinting true; GetContract; Call Paused; Call AllowedToExist;
       Call TotalSupply;
       Notify (Text "All NFTs have been sold!") None None None;
       SetIsMinting false]
  /\ existsb offers_retry (events (mint account price env amt st)) = false
  /\ existsb is_buy (events (mint account price env amt st)) = false
  /\ outcome (mint account price env amt st) = Returned tt
  /\ isMinting (final (mint account price env amt st)) = false.
Proof.
  intros Ha Hp Hal Hts Hlt Hle.
  assert (E : events (mint account price env amt st)
    = [SetIsMinting true; GetContract; Call Paused; Call AllowedToExist;
       Call TotalSupply;
       Notify (Text "All NFTs have been sold!") None None None;
       SetIsMinting false]
    /\ outcome (mint account price env amt st) = Returned tt
    /\ isMinting (final (mint account price env amt st)) = false).
  { unfold mint. rewrite Ha. unfold_run. rewrite Hp; cbn. rewrite Hal; cbn.
    rewrite Hts; cbn. rewrite Hlt, Hle; cbn. auto. }
  destruct E as (E & Ho & Hf). rewrite E. auto.
Qed.

Lemma mint_sold_out_witness :
  (100 - 100 <? 1)%float = true
  /\ (100 - 100 <=? 0)%float = true
  /\ events (mint (Some Examples.alice) Examples.price_0_1
               (Examples.answers false 100 100 5) 1%float (initial ∅))
     = [SetIsMinting true; GetContract; Call Paused; Call AllowedToExist;
        Call TotalSupply;
        Notify (Text "All NFTs have been sold!") None None None;
        SetIsMinting false].
Proof.
  split; [ reflexivity | split; [ reflexivity | ] ].
  apply (mint_sold_out (Some Examples.alice) Examples.price_0_1
           (Examples.answers false 100 100 5) 1%float (initial ∅)
           Examples.alice_address 100%float 100%float);
    reflexivity.
Defined.



(** The comparison is made on doubles while the value sent is an exact
    decimal: [0.7 * 3] is the double 2.0999999999999996, so a balance of 2.1
    passes the check and the buy transaction is submitted for 2.1 * 10^18. *)
Remark double_product_may_round_down :
  (2.1 <=? 0.7 * 3)%float = false
  /\ In (Send_buy 3%float Examples.alice_address "2100000000000000000")
        (events (mint (Some Examples.alice) 0.7%float (Examples.answers false 100 10 2.1)
                   3%float (initial ∅))).
Proof. split; vm_compute; [ reflexivity | do 6 right; left; reflexivity ]. Qed.

(** ** Failures of the awaited calls *)

(** A buy transaction that is rejected, or whose receipt cannot be read, is
    caught: the run returns, the flag is reset, no error toast is shown. *)
Lemma mint_buy_failure_caught (account : option AccountInfo)
    (price : JsNumber.number) (env : MintEnv) (amt : JsNumber.number) (st : State)
    (n : JsNumber.number) (f v : string) :
  In (Send_buy n f v) (events (mint account price env amt st)) ->
  outcome (mint account price env amt st) = Returned tt
  /\ isMinting (final (mint account price env amt st)) = false
  /\ existsb is_error_notification (events (mint account price env amt st)) = false.
Proof.
  intros H. destruct env as [p a t b h r].
  unfold_run.
  repeat step_run;
    repeat match goal with
      | H : _ \/ _ |- _ => destruct H
      | H : False |- _ => destruct H
      end; try discriminate; auto.
Qed.

(** A read query that throws is not caught: the exception leaves [mint] and
    the flag stays set. *)
Lemma mint_read_failure_escapes (account : option AccountInfo)
    (price : JsNumber.number) (env : MintEnv) (amt : JsNumber.number) (st : State)
    (addr : string) (e : Exn) :
  truthy_address account = Some addr ->
  paused env = Thrown e
  \/ (paused env = Returned false /\ allowedToExist env = Thrown e)
  \/ (paused env = Returned false /\ (exists a, allowedToExist env = Returned a)
      /\ totalSupply env = Thrown e)
  \/ (paused env = Returned false
      /\ (exists a t, allowedToExist env = Returned a /\ totalSupply env = Returned t
                      /\ (a - t <? amt)%float = false)
      /\ getMaticBalance env addr = Thrown e) ->
  outcome (mint account price env amt st) = Thrown e
  /\ isMinting (final (mint account price env amt st)) = true
  /\ existsb is_notification (events (mint account price env amt st)) = false.
Proof.
  intros Ha H. unfold mint. rewrite Ha. unfold_run.
  destruct H as [Hp | [(Hp & Hal) | [(Hp & (a & Hal) & Hts) | (Hp & (a & t & Hal & Hts & Hlt) & Hb)]]];
    rewrite Hp; cbn; auto;
    rewrite Hal; cbn; auto;
    rewrite Hts; cbn; auto.
  rewrite Hlt; cbn. rewrite Hb; cbn. auto.
Qed.

(** C1. With a connected account and a paused query that the node rejects,
    the exception is not caught: it leaves mint, and the in-progress flag,
    set to true before the query, is never reset. *)
Theorem mint_paused_query_failure_leaves_flag_set :
  outcome (mint (Some Examples.alice) Examples.price_0_1 Examples.paused_query_fails
             1%float (initial ∅))
    = Thrown (Rejection "Internal JSON-RPC error.")
  /\ isMinting (final (mint (Some Examples.alice) Examples.price_0_1
                         Examples.paused_query_fails 1%float (initial ∅))) = true
  /\ events (mint (Some Examples.alice) Examples.price_0_1 Examples.paused_query_fails
               1%float (initial ∅))
     = [SetIsMinting true; GetContract; Call Paused].
Proof. repeat split; reflexivity. Qed.

(** ** Connecting and disconnecting *)

(** C10. Connecting with MetaMask when the browser has no [window.ethereum]
    shows the install toast and then still asks the wallet service to
    initialise a MetaMask connection. *)
Theorem connect_without_metamask_proceeds (env : WalletEnv) (st : State) :
  window_ethereum env = false ->
  exists rest,
    events (connect env MetaMask st)
      = Notify (Text "Please install MetaMask!") (Some error) None None
        :: InitWalletConnect MetaMask :: rest.
Proof.
  intros H. unfold connect. rewrite H. unfold_run.
  repeat step_run; eexists; reflexivity.
Qed.

Lemma connect_without_metamask_proceeds_witness :
  window_ethereum Examples.no_metamask = false
  /\ exists rest,
       events (connect Examples.no_metamask MetaMask (initial ∅))
         = Notify (Text "Please install MetaMask!") (Some error) None None
           :: InitWalletConnect MetaMask :: rest.
Proof.
  split; [ reflexivity | ].
  apply (connect_without_metamask_proceeds Examples.no_metamask (initial ∅)).
  reflexivity.
Defined.

(** C8, as the code has it. When the error handler of the subscription
    receives an error with code 4, it resets the wallet connection, shows an
    error toast that names the chain of the configuration, and stores the
    empty account, as disconnect does; the stored provider type and the
    subscription are left as they are. *)
Theorem subscriberError_wrong_network (chainName : string) (err : WalletError)
    (c : JsNumber.number) (st : State) :
  code err = Some c ->
  (c =? 4)%float = true ->
  events (subscriberError chainName err st)
    = [ConsoleError err; ResetConnect;
       Notify (Text ("You changed to wrong network. Please choose " +:+ chainName))
         (Some error) None None;
       SetAccount empty_object]
  /\ final (subscriberError chainName err st)
     = mkState (Some empty_object) (currentSubsriber st) (pricePerToken st)
         (isMinting st) (localStorage st)
  /\ account (final (subscriberError chainName err st))
     = account (final (disconnect (currentSubsriber st) st))
  /\ In ResetConnect (events (disconnect (currentSubsriber st) st)).
Proof.
  intros Hc H4. unfold subscriberError, disconnect. unfold_run.
  rewrite Hc; cbn. rewrite H4; cbn.
  repeat split; try reflexivity; destruct (currentSubsriber st); cbn; intuition.
Qed.

Lemma subscriberError_wrong_network_witness :
  events (subscriberError "Polygon Mainnet" Examples.wrong_network Examples.connected)
    = [ConsoleError Examples.wrong_network; ResetConnect;
       Notify (Text "You changed to wrong network. Please choose Polygon Mainnet")
         (Some error) None None;
       SetAccount empty_object]
  /\ final (subscriberError "Polygon Mainnet" Examples.wrong_network Examples.connected)
     = mkState (Some empty_object) (currentSubsriber Examples.connected)
         (pricePerToken Examples.connected) (isMinting Examples.connected)
         (localStorage Examples.connected)
  /\ account (final (subscriberError "Polygon Mainnet" Examples.wrong_network
                       Examples.connected))
     = account (final (disconnect (currentSubsriber Examples.connected)
                         Examples.connected))
  /\ In ResetConnect
       (events (disconnect (currentSubsriber Examples.connected) Examples.connected)).
Proof.
  apply (subscriberError_wrong_network "Polygon Mainnet" Examples.wrong_network
           4%float Examples.connected); reflexivity.
Defined.

(** C8, as stated, fails: after a wrong-network error the provider type is
    still stored and the subscription is not unsubscribed, whereas disconnect
    removes the one and unsubscribes the other. *)
Lemma subscriberError_is_not_disconnect :
  code Examples.wrong_network = Some 4%float
  /\ localStorage (final (subscriberError "Polygon Mainnet" Examples.wrong_network
                            Examples.connected)) !! "providerType"%string
     = Some "MetaMask"%string
  /\ localStorage (final (disconnect (currentSubsriber Examples.connected)
                            Examples.connected)) !! "providerType"%string
     = None
  /\ existsb (fun ev => match ev with Unsubscribe _ => true | _ => false end)
       (events (subscriberError "Polygon Mainnet" Examples.wrong_network
                  Examples.connected)) = false
  /\ events (disconnect (currentSubsriber Examples.connected) Examples.connected)
     = [SetAccount empty_object; Unsubscribe 1%nat; ResetConnect]
  /\ final (subscriberError "Polygon Mainnet" Examples.wrong_network Examples.connected)
     <> final (disconnect (currentSubsriber Examples.connected) Examples.connected).
Proof.
  repeat split; try (vm_compute; reflexivity).
  intros H.
  apply (f_equal (fun st => localStorage st !! "providerType"%string)) in H.
  vm_compute in H. discriminate H.
Qed.

(** ** The value of the buy transaction *)

Lemma pow10Q_succ (p : Z) : (JsNumber.pow10Q (p + 1) == JsNumber.pow10Q p * inject_Z 10)%Q.
Proof.
  unfold JsNumber.pow10Q. rewrite Qpower_plus by discriminate. reflexivity.
Qed.

Lemma pow10Q_add (p q : Z) :
  (JsNumber.pow10Q (p + q) == JsNumber.pow10Q p * JsNumber.pow10Q q)%Q.
Proof. unfold JsNumber.pow10Q. now rewrite Qpower_plus by discriminate. Qed.

(** Stripping trailing zeros keeps the number denoted. *)
Lemma strip_zeros_value (fuel : nat) (s p : Z) :
  (BigNumber.toQ (fst (JsNumber.strip_zeros fuel s p)) (snd (JsNumber.strip_zeros fuel s p))
   == BigNumber.toQ s p)%Q.
Proof.
  revert s p. induction fuel as [ | fuel IH]; intros s p; cbn [JsNumber.strip_zeros].
  - reflexivity.
  - destruct ((s mod 10 =? 0)%Z && negb (s =? 0)%Z) eqn:E; [ | reflexivity ].
    rewrite IH. apply andb_true_iff in E as [E _]. apply Z.eqb_eq in E.
    unfold BigNumber.toQ. rewrite pow10Q_succ.
    rewrite (Z.div_mod s 10) at 2 by discriminate. rewrite E, Z.add_0_r.
    rewrite inject_Z_mult. ring.
Qed.

Lemma normalize_value (c e : Z) :
  exists c' e', BigNumber.normalize c e = BigNumber.Finite c' e'
                /\ (BigNumber.toQ c' e' == BigNumber.toQ c e)%Q.
Proof.
  unfold BigNumber.normalize. destruct (c =? 0)%Z eqn:E.
  - exists 0%Z, 0%Z. split; [ reflexivity | ].
    apply Z.eqb_eq in E. subst c. unfold BigNumber.toQ. ring.
  - pose proof (strip_zeros_value (S (Z.to_nat (Z.log2 (Z.abs c)))) c e) as H.
    destruct (JsNumber.strip_zeros _ c e) as [c' e']. exists c', e'. split; [ reflexivity | exact H ].
Qed.

(** [times] multiplies exactly. *)
Lemma times_exact (c1 e1 c2 e2 : Z) :
  exists c e, BigNumber.times (BigNumber.Finite c1 e1) (BigNumber.Finite c2 e2)
              = BigNumber.Finite c e
              /\ (BigNumber.toQ c e == BigNumber.toQ c1 e1 * BigNumber.toQ c2 e2)%Q.
Proof.
  destruct (normalize_value (c1 * c2) (e1 + e2)) as (c & e & Hn & Hv).
  exists c, e. split.
  - cbn [BigNumber.times]. exact Hn.
  - rewrite Hv. unfold BigNumber.toQ. rewrite pow10Q_add, inject_Z_mult. ring.
Qed.

Lemma ten_pow_18_exact : BigNumber.of_number JsNumber.ten_pow_18 = BigNumber.Finite 1 18.
Proof. vm_compute. reflexivity. Qed.

(** *** Reading the value back

    The string [toFixed] prints is a plain decimal numeral; read by the
    library's own parser it gives the BigNumber it was printed from. *)

Lemma read_digits_uint (acc : Z) (d : Decimal.uint) :
  BigNumber.read_digits acc (NilEmpty.string_of_uint d) = Some (uint_value acc d).
Proof.
  revert acc.
  induction d; intros acc;
    cbn [NilEmpty.string_of_uint BigNumber.read_digits uint_value];
    [ reflexivity | apply IHd .. ].
Qed.

Lemma all_digits_uint (d : Decimal.uint) : all_digits (NilEmpty.string_of_uint d) = true.
Proof.
  induction d; cbn [NilEmpty.string_of_uint all_digits];
    [ reflexivity | exact IHd .. ].
Qed.

Lemma uint_value_of_lu (acc : Z) (d : Decimal.uint) :
  uint_value acc d
  = (acc * 10 ^ Z.of_N (DecimalPos.Unsigned.usize d)
     + Z.of_N (DecimalPos.Unsigned.of_lu (Decimal.rev d)))%Z.
Proof.
  revert acc.
  induction d; intros acc; cbn [uint_value DecimalPos.Unsigned.usize];
    [ cbn; lia | .. ];
    unfold Decimal.rev; cbn [Decimal.revapp];
    rewrite DecimalPos.Unsigned.of_lu_revapp, IHd;
    cbn [DecimalPos.Unsigned.of_lu];
    rewrite ?N2Z.inj_add, ?N2Z.inj_mul, ?N2Z.inj_pow, ?N2Z.inj_succ;
    rewrite Z.pow_succ_r by apply N2Z.is_nonneg;
    try match goal with
      | |- context [Z.of_N (?a + 10 * 0)%N] =>
          let v := eval vm_compute in (Z.of_N (a + 10 * 0)%N) in
          change (Z.of_N (a + 10 * 0)%N) with v
      end;
    change (Z.of_N 10) with 10%Z; ring.
Qed.

Lemma digits_of_string (z : Z) :
  JsNumber.digits_of z = NilEmpty.string_of_uint (N.to_uint (Z.to_N z)).
Proof.
  unfold JsNumber.digits_of, NilZero.string_of_uint.
  destruct (N.to_uint (Z.to_N z)) eqn:E; try reflexivity.
  destruct (Z.to_N z) as [ | p]; cbn in E; [ discriminate | ].
  now apply DecimalPos.Unsigned.to_uint_nonnil in E.
Qed.

Lemma read_digits_of (z : Z) :
  (0 <= z)%Z -> BigNumber.read_digits 0 (JsNumber.digits_of z) = Some z.
Proof.
  intros Hz. rewrite digits_of_string, read_digits_uint, uint_value_of_lu.
  rewrite <- DecimalPos.Unsigned.of_uint_alt.
  change (Pos.of_uint ?d) with (N.of_uint d).
  rewrite DecimalN.Unsigned.of_to, Z2N.id by assumption.
  f_equal; ring.
Qed.

Lemma all_digits_of (z : Z) : all_digits (JsNumber.digits_of z) = true.
Proof. rewrite digits_of_string. apply all_digits_uint. Qed.

Lemma digits_of_nonempty (z : Z) : BigNumber.nonempty (JsNumber.digits_of z) = true.
Proof.
  rewrite digits_of_string.
  destruct (N.to_uint (Z.to_N z)) eqn:E; try reflexivity.
  destruct (Z.to_N z) as [ | p]; cbn in E; [ discriminate | ].
  now apply DecimalPos.Unsigned.to_uint_nonnil in E.
Qed.

Lemma append_nil (s : string) : "" +:+ s = s.
Proof. reflexivity. Qed.

Lemma append_cons (a : ascii) (s1 s2 : string) :
  String a s1 +:+ s2 = String a (s1 +:+ s2).
Proof. reflexivity. Qed.

Ltac simpl_append := rewrite ?append_cons, ?append_nil.

Lemma read_digits_app (acc : Z) (s1 s2 : string) :
  BigNumber.read_digits acc (s1 +:+ s2)
  = match BigNumber.read_digits acc s1 with
    | Some v => BigNumber.read_digits v s2
    | None => None
    end.
Proof.
  revert acc. induction s1 as [ | a s1 IH]; intros acc; simpl_append; cbn;
    [ reflexivity | ].
  destruct (BigNumber.digit_of_ascii a); [ apply IH | reflexivity ].
Qed.

Lemma read_digits_zeros (acc : Z) (n : nat) :
  BigNumber.read_digits acc (JsNumber.zeros n) = Some (acc * 10 ^ Z.of_nat n)%Z.
Proof.
  revert acc. induction n as [ | n IH]; intros acc.
  - cbn [JsNumber.zeros BigNumber.read_digits Z.of_nat].
    now rewrite Z.pow_0_r, Z.mul_1_r.
  - cbn [JsNumber.zeros BigNumber.read_digits].
    change (BigNumber.digit_of_ascii "0") with (Some 0%Z). cbv beta iota.
    rewrite IH, Nat2Z.inj_succ, Z.pow_succ_r by apply Nat2Z.is_nonneg.
    f_equal. ring.
Qed.

Lemma all_digits_app (s1 s2 : string) :
  all_digits (s1 +:+ s2) = all_digits s1 && all_digits s2.
Proof.
  induction s1 as [ | a s1 IH]; simpl_append; cbn; [ reflexivity | ].
  destruct (BigNumber.digit_of_ascii a); [ exact IH | reflexivity ].
Qed.

Lemma all_digits_zeros (n : nat) : all_digits (JsNumber.zeros n) = true.
Proof. induction n; [ reflexivity | exact IHn ]. Qed.

Lemma take_drop (n : nat) (s : string) : JsNumber.take n s +:+ JsNumber.drop n s = s.
Proof.
  revert s. induction n as [ | n IH]; intros [ | a s]; cbn; simpl_append;
    try reflexivity.
  now rewrite IH.
Qed.

Lemma drop_length (n : nat) (s : string) :
  String.length (JsNumber.drop n s) = (String.length s - n)%nat.
Proof.
  revert s. induction n as [ | n IH]; intros [ | a s]; cbn; auto.
Qed.

Lemma append_length (s1 s2 : string) :
  String.length (s1 +:+ s2) = (String.length s1 + String.length s2)%nat.
Proof. induction s1; simpl_append; cbn; auto. Qed.

Lemma zeros_length (n : nat) : String.length (JsNumber.zeros n) = n.
Proof. induction n; cbn; auto. Qed.

(** A digit is neither a point, nor an exponent mark, nor a sign, nor the
    first letter of Infinity. *)
Lemma digit_is_plain (a : ascii) (d : Z) :
  BigNumber.digit_of_ascii a = Some d ->
  BigNumber.is_dot a = false /\ BigNumber.is_e a = false
  /\ Ascii.eqb a "-" = false /\ Ascii.eqb a "I" = false.
Proof.
  destruct a as [[] [] [] [] [] [] [] []]; cbn; intros H; try discriminate H;
    repeat split.
Qed.

Lemma split_at_digits (f : ascii -> bool) (s : string) :
  (forall a d, BigNumber.digit_of_ascii a = Some d -> f a = false) ->
  all_digits s = true ->
  BigNumber.split_at f s = (s, None).
Proof.
  intros Hf. induction s as [ | a s IH]; cbn; [ reflexivity | ].
  destruct (BigNumber.digit_of_ascii a) as [d | ] eqn:E; [ | discriminate ].
  intros H. rewrite (Hf a d E), (IH H). reflexivity.
Qed.

Lemma split_at_dot (s1 s2 : string) :
  all_digits s1 = true ->
  BigNumber.split_at BigNumber.is_dot (s1 +:+ String "." s2) = (s1, Some s2).
Proof.
  induction s1 as [ | a s1 IH]; simpl_append; cbn; [ reflexivity | ].
  destruct (BigNumber.digit_of_ascii a) as [d | ] eqn:E; [ | discriminate ].
  intros H. destruct (digit_is_plain a d E) as (-> & _). now rewrite (IH H).
Qed.

Lemma split_at_e_fraction (s1 s2 : string) :
  all_digits s1 = true -> all_digits s2 = true ->
  BigNumber.split_at BigNumber.is_e (s1 +:+ String "." s2) = (s1 +:+ String "." s2, None).
Proof.
  intros H1 H2. induction s1 as [ | a s1 IH]; simpl_append; cbn.
  - rewrite split_at_digits; auto. intros a d E. now destruct (digit_is_plain a d E) as (_ & -> & _).
  - cbn in H1. destruct (BigNumber.digit_of_ascii a) as [d | ] eqn:E; [ | discriminate ].
    destruct (digit_is_plain a d E) as (_ & -> & _). now rewrite (IH H1).
Qed.

Lemma normalize_normal (c e : Z) : normal c e -> BigNumber.normalize c e = BigNumber.Finite c e.
Proof.
  unfold BigNumber.normalize. intros [[-> ->] | H]; [ reflexivity | ].
  destruct (c =? 0)%Z eqn:E.
  - apply Z.eqb_eq in E. subst c. now destruct H.
  - cbn [JsNumber.strip_zeros]. apply Z.eqb_neq in H. now rewrite H.
Qed.

Lemma strip_zeros_pow10 (fuel k : nat) (c p : Z) :
  (c mod 10 <> 0)%Z -> (k < fuel)%nat ->
  JsNumber.strip_zeros fuel (c * 10 ^ Z.of_nat k) p = (c, (p + Z.of_nat k)%Z).
Proof.
  intros Hc. revert fuel p.
  induction k as [ | k IH]; intros [ | fuel] p Hk; try lia; cbn [JsNumber.strip_zeros].
  - rewrite Z.pow_0_r, Z.mul_1_r. apply Z.eqb_neq in Hc. rewrite Hc. cbn.
    now rewrite Z.add_0_r.
  - rewrite Nat2Z.inj_succ, Z.pow_succ_r by apply Nat2Z.is_nonneg.
    replace (c * (10 * 10 ^ Z.of_nat k))%Z with (c * 10 ^ Z.of_nat k * 10)%Z by ring.
    rewrite Z.mod_mul, Z.div_mul by discriminate. cbn [Z.eqb andb].
    assert (N : (c * 10 ^ Z.of_nat k * 10 =? 0)%Z = false).
    { apply Z.eqb_neq. intros E. apply Z.mul_eq_0 in E as [E | E]; [ | lia ].
      apply Z.mul_eq_0 in E as [E | E].
      - subst c. now apply Hc.
      - revert E. apply Z.pow_nonzero; lia. }
    rewrite N. cbn [negb]. rewrite IH by lia. f_equal. lia.
Qed.

Lemma normalize_pow10 (c : Z) (k : nat) :
  (c mod 10 <> 0)%Z ->
  BigNumber.normalize (c * 10 ^ Z.of_nat k) 0 = BigNumber.Finite c (Z.of_nat k).
Proof.
  intros Hc. unfold BigNumber.normalize.
  assert (Hc0 : c <> 0%Z) by (intros ->; now apply Hc).
  assert (Hp : (0 < 10 ^ Z.of_nat k)%Z) by (apply Z.pow_pos_nonneg; lia).
  assert (N : (c * 10 ^ Z.of_nat k =? 0)%Z = false) by (apply Z.eqb_neq; nia).
  rewrite N, strip_zeros_pow10; [ reflexivity | assumption | ].
  assert (Hk : (Z.of_nat k <= Z.log2 (Z.abs (c * 10 ^ Z.of_nat k)))%Z).
  { apply Z.log2_le_pow2; [ lia | ].
    rewrite Z.abs_mul, (Z.abs_eq (10 ^ _)) by lia.
    assert (2 ^ Z.of_nat k <= 10 ^ Z.of_nat k)%Z by (apply Z.pow_le_mono_l; lia).
    nia. }
  lia.
Qed.

(** With the fuel [normalize] gives it, stripping ends on a coefficient
    without trailing zero. *)
Lemma strip_zeros_normal (fuel : nat) (s p : Z) :
  s <> 0%Z -> (Z.abs s < 2 ^ Z.of_nat fuel)%Z ->
  (fst (JsNumber.strip_zeros fuel s p) mod 10 <> 0)%Z.
Proof.
  revert s p. induction fuel as [ | fuel IH]; intros s p Hs Hlt.
  - cbn in Hlt. lia.
  - cbn [JsNumber.strip_zeros].
    destruct (s mod 10 =? 0)%Z eqn:E; cbn [andb].
    + apply Z.eqb_neq in Hs as Hs'. rewrite Hs'. cbn [negb].
      apply Z.eqb_eq in E.
      pose proof (Z.div_mod s 10 ltac:(discriminate)) as D. rewrite E in D.
      apply IH; [ lia | ].
      rewrite Nat2Z.inj_succ, Z.pow_succ_r in Hlt by apply Nat2Z.is_nonneg. lia.
    + cbn [fst]. now apply Z.eqb_neq.
Qed.

Lemma normalize_is_normal (c e c' e' : Z) :
  BigNumber.normalize c e = BigNumber.Finite c' e' -> normal c' e'.
Proof.
  unfold BigNumber.normalize. destruct (c =? 0)%Z eqn:E.
  - intros [= <- <-]. now left.
  - apply Z.eqb_neq in E.
    pose proof (strip_zeros_normal (S (Z.to_nat (Z.log2 (Z.abs c)))) c e E) as H.
    destruct (JsNumber.strip_zeros _ c e) as [s p]. intros [= <- <-]. right.
    apply H. rewrite Nat2Z.inj_succ, Z2Nat.id by apply Z.log2_nonneg.
    apply Z.log2_spec. lia.
Qed.

Lemma read_mantissa_head (s : string) (r : Z * Z) :
  BigNumber.read_mantissa s = Some r ->
  exists a s', s = String a s' /\ Ascii.eqb a "-" = false /\ Ascii.eqb a "I" = false.
Proof.
  destruct s as [ | a s']; [ discriminate | ].
  intros H. exists a, s'. split; [ reflexivity | ].
  unfold BigNumber.read_mantissa in H. cbn [BigNumber.split_at] in H.
  destruct (BigNumber.is_dot a) eqn:Ed.
  - unfold BigNumber.is_dot in Ed. apply Ascii.eqb_eq in Ed. subst a. split; reflexivity.
  - destruct (BigNumber.split_at BigNumber.is_dot s') as [l [fp | ]];
      cbn [BigNumber.nonempty orb BigNumber.read_digits] in H;
      destruct (BigNumber.digit_of_ascii a) as [d | ] eqn:E; try discriminate H;
      now destruct (digit_is_plain a d E) as (_ & _ & -> & ->).
Qed.

Lemma split_at_head (f : ascii -> bool) (s l : string) (r : option string) :
  BigNumber.split_at f s = (l, r) ->
  forall a l', l = String a l' -> exists s', s = String a s'.
Proof.
  destruct s as [ | b s']; cbn.
  - intros [= <- <-] a l' E. discriminate E.
  - destruct (f b).
    + intros [= <- <-] a l' E. discriminate E.
    + destruct (BigNumber.split_at f s') as [l0 r0]. intros [= <- <-] a l' [= -> ->].
      now exists s'.
Qed.

(** A numeral starts with a digit or a point, so it is neither signed nor
    the word Infinity. *)
Lemma of_string_unsigned (s : string) (c e : Z) :
  BigNumber.of_unsigned s = Some (c, e) ->
  BigNumber.of_string s = BigNumber.normalize c e
  /\ BigNumber.of_string (String "-" s) = BigNumber.normalize (- c) e.
Proof.
  intros H.
  assert (Hd : exists a s', s = String a s' /\ Ascii.eqb a "-" = false
                            /\ Ascii.eqb a "I" = false).
  { unfold BigNumber.of_unsigned in H.
    destruct (BigNumber.split_at BigNumber.is_e s) as [ms es] eqn:Es.
    destruct (BigNumber.read_mantissa ms) as [r | ] eqn:Em; [ | discriminate H ].
    destruct (read_mantissa_head ms r Em) as (a & ms' & -> & Hm & Hi).
    destruct (split_at_head _ _ _ _ Es a ms' eq_refl) as (s' & ->).
    now exists a, s'. }
  destruct Hd as (a & s' & -> & Hm & Hi).
  unfold BigNumber.of_string. cbn [String.eqb]. rewrite Hi, Hm, H.
  split; reflexivity.
Qed.

(** Reading the plain notation of [n * 10^e], for a natural [n]. *)
Lemma of_unsigned_toFixedPoint (n e : Z) :
  (0 <= n)%Z ->
  BigNumber.of_unsigned
    (BigNumber.toFixedPoint (JsNumber.digits_of n)
       (e + Z.of_nat (String.length (JsNumber.digits_of n)) - 1))
  = Some (if (0 <? e)%Z then ((n * 10 ^ e)%Z, 0%Z) else (n, e)).
Proof.
  intros Hn.
  pose proof (read_digits_of n Hn) as Hr.
  pose proof (all_digits_of n) as Hd.
  pose proof (digits_of_nonempty n) as Hne.
  set (ds := JsNumber.digits_of n) in *.
  set (len := Z.of_nat (String.length ds)).
  assert (Hlen : (0 < len)%Z).
  { subst len. destruct ds; [ discriminate Hne | cbn [String.length]; lia ]. }
  assert (He : forall a d, BigNumber.digit_of_ascii a = Some d -> BigNumber.is_e a = false).
  { intros a d E. now destruct (digit_is_plain a d E) as (_ & -> & _). }
  assert (Hdot : forall a d, BigNumber.digit_of_ascii a = Some d -> BigNumber.is_dot a = false).
  { intros a d E. now destruct (digit_is_plain a d E) as (-> & _). }
  unfold BigNumber.toFixedPoint, BigNumber.of_unsigned. fold len.
  destruct (e + len - 1 <? 0)%Z eqn:E1; [ | destruct (len <? e + len - 1 + 1)%Z eqn:E2;
    [ | destruct (e + len - 1 + 1 <? len)%Z eqn:E3 ] ].
  - (* 0.000ddd *)
    apply Z.ltb_lt in E1.
    change ("0." +:+ JsNumber.zeros (Z.to_nat (- (e + len - 1) - 1)) +:+ ds)
      with ("0" +:+ String "." (JsNumber.zeros (Z.to_nat (- (e + len - 1) - 1)) +:+ ds)).
    rewrite split_at_e_fraction
      by (rewrite ?all_digits_app, ?all_digits_zeros, ?Hd; reflexivity).
    unfold BigNumber.read_mantissa. rewrite split_at_dot by reflexivity.
    cbn [BigNumber.nonempty orb]. change (BigNumber.read_digits 0 "0") with (Some 0%Z).
    cbv beta iota. rewrite read_digits_app, read_digits_zeros, Z.mul_0_l, Hr.
    cbn [option_map]. rewrite append_length, zeros_length.
    replace (0 <? e)%Z with false by (symmetry; apply Z.ltb_ge; lia).
    do 2 f_equal. subst len. lia.
  - (* ddd000 *)
    apply Z.ltb_lt in E2.
    rewrite split_at_digits by (auto; rewrite all_digits_app, all_digits_zeros, Hd; reflexivity).
    unfold BigNumber.read_mantissa.
    rewrite split_at_digits by (auto; rewrite all_digits_app, all_digits_zeros, Hd; reflexivity).
    replace (BigNumber.nonempty (ds +:+ _)) with true
      by (destruct ds; [ discriminate Hne | reflexivity ]).
    rewrite read_digits_app, Hr, read_digits_zeros. cbn [option_map].
    replace (0 <? e)%Z with true by (symmetry; apply Z.ltb_lt; lia).
    rewrite Z2Nat.id by lia.
    replace (e + len - 1 + 1 - len)%Z with e by lia. reflexivity.
  - (* dd.ddd *)
    apply Z.ltb_ge in E1, E2. apply Z.ltb_lt in E3.
    pose proof (take_drop (Z.to_nat (e + len - 1 + 1)) ds) as Htd.
    assert (Ht : all_digits (JsNumber.take (Z.to_nat (e + len - 1 + 1)) ds) = true
                 /\ all_digits (JsNumber.drop (Z.to_nat (e + len - 1 + 1)) ds) = true).
    { apply andb_true_iff. rewrite <- all_digits_app, Htd. exact Hd. }
    destruct Ht as [Ht Hdr].
    change (JsNumber.take (Z.to_nat (e + len - 1 + 1)) ds +:+ "." +:+
            JsNumber.drop (Z.to_nat (e + len - 1 + 1)) ds)
      with (JsNumber.take (Z.to_nat (e + len - 1 + 1)) ds +:+
            String "." (JsNumber.drop (Z.to_nat (e + len - 1 + 1)) ds)).
    rewrite split_at_e_fraction by assumption.
    unfold BigNumber.read_mantissa. rewrite split_at_dot by assumption.
    replace (BigNumber.nonempty (JsNumber.take _ ds)) with true.
    2:{ destruct ds; [ discriminate Hne | ].
        destruct (Z.to_nat (e + len - 1 + 1)) eqn:Z0; [ lia | reflexivity ]. }
    cbn [orb].
    pose proof (read_digits_app 0 (JsNumber.take (Z.to_nat (e + len - 1 + 1)) ds)
                  (JsNumber.drop (Z.to_nat (e + len - 1 + 1)) ds)) as Happ.
    rewrite Htd, Hr in Happ.
    destruct (BigNumber.read_digits 0 (JsNumber.take _ ds)) as [v | ]; [ | discriminate Happ ].
    rewrite <- Happ. cbn [option_map]. rewrite drop_length.
    replace (0 <? e)%Z with false by (symmetry; apply Z.ltb_ge; lia).
    do 2 f_equal. subst len. lia.
  - (* ddd *)
    apply Z.ltb_ge in E1, E2, E3.
    rewrite split_at_digits by auto.
    unfold BigNumber.read_mantissa. rewrite split_at_digits by auto.
    rewrite Hne, Hr. cbn [option_map].
    replace (0 <? e)%Z with false by (symmetry; apply Z.ltb_ge; lia).
    do 2 f_equal. lia.
Qed.

(** *** The decimal a double is read as *)

Lemma Qfloor_nonneg (q : Q) : (0 <= q)%Q -> (0 <= JsNumber.Qfloor q)%Z.
Proof.
  unfold Qle, JsNumber.Qfloor. cbn. intros H. apply Z.div_pos; lia.
Qed.

Lemma valQ_nonneg (m : positive) (e : Z) : (0 <= JsNumber.valQ m e)%Q.
Proof.
  unfold JsNumber.valQ, JsNumber.pow2Q. apply Qmult_le_0_compat.
  - rewrite <- (Zle_Qle 0). lia.
  - apply Qpower_0_le. rewrite <- (Zle_Qle 0). lia.
Qed.

Lemma scaled_floor_nonneg (m : positive) (e p : Z) :
  (0 <= JsNumber.Qfloor (JsNumber.valQ m e * JsNumber.pow10Q p))%Z.
Proof.
  apply Qfloor_nonneg, Qmult_le_0_compat; [ apply valQ_nonneg | ].
  apply Qpower_0_le. rewrite <- (Zle_Qle 0). lia.
Qed.

Lemma candidate_nonneg (m : positive) (e n0 k s p : Z) :
  JsNumber.candidate m e n0 k = Some (s, p) -> (0 <= s)%Z.
Proof.
  unfold JsNumber.candidate.
  pose proof (scaled_floor_nonneg m e (- (n0 - k))) as H.
  repeat match goal with
    | |- context [if ?b then _ else _] => destruct b
    end; intros [= <- <-]; lia.
Qed.

Lemma shortest_from_nonneg (fuel : nat) (m : positive) (e n0 k : Z) :
  (0 <= fst (JsNumber.shortest_from fuel m e n0 k))%Z.
Proof.
  revert k. induction fuel as [ | fuel IH]; intros k; cbn [JsNumber.shortest_from].
  - apply scaled_floor_nonneg.
  - destruct (JsNumber.candidate m e n0 k) as [[s p] | ] eqn:E; [ | apply IH ].
    now apply candidate_nonneg in E.
Qed.

Lemma strip_zeros_nonneg (fuel : nat) (s p : Z) :
  (0 <= s)%Z -> (0 <= fst (JsNumber.strip_zeros fuel s p))%Z.
Proof.
  revert s p. induction fuel as [ | fuel IH]; intros s p Hs; cbn [JsNumber.strip_zeros].
  - exact Hs.
  - destruct ((s mod 10 =? 0)%Z && negb (s =? 0)%Z); [ | exact Hs ].
    apply IH, Z.div_pos; lia.
Qed.

Lemma shortest_nonneg (m : positive) (e : Z) : (0 <= fst (JsNumber.shortest m e))%Z.
Proof.
  unfold JsNumber.shortest.
  pose proof (shortest_from_nonneg 17 m e (JsNumber.magnitude (JsNumber.valQ m e)) 1) as H.
  destruct (JsNumber.shortest_from 17 m e _ 1) as [s p]. now apply strip_zeros_nonneg.
Qed.

Lemma split_at_e_found (s1 s2 : string) :
  all_digits s1 = true ->
  BigNumber.split_at BigNumber.is_e (s1 +:+ String "e" s2) = (s1, Some s2).
Proof.
  induction s1 as [ | a s1 IH]; simpl_append; cbn; [ reflexivity | ].
  destruct (BigNumber.digit_of_ascii a) as [d | ] eqn:E; [ | discriminate ].
  intros H. destruct (digit_is_plain a d E) as (_ & -> & _). now rewrite (IH H).
Qed.

Lemma split_at_e_found_fraction (d1 d2 s2 : string) :
  all_digits d1 = true -> all_digits d2 = true ->
  BigNumber.split_at BigNumber.is_e (d1 +:+ String "." (d2 +:+ String "e" s2))
  = (d1 +:+ String "." d2, Some s2).
Proof.
  intros H1 H2. induction d1 as [ | a d1 IH]; simpl_append; cbn.
  - now rewrite split_at_e_found.
  - cbn in H1. destruct (BigNumber.digit_of_ascii a) as [d | ] eqn:E; [ | discriminate ].
    destruct (digit_is_plain a d E) as (_ & -> & _). now rewrite (IH H1).
Qed.

Lemma read_exponent_signed (ex : Z) :
  BigNumber.read_exponent
    ((if (0 <=? ex)%Z then "+" else "-") +:+ JsNumber.digits_of (Z.abs ex))
  = Some ex.
Proof.
  pose proof (read_digits_of (Z.abs ex) (Z.abs_nonneg ex)) as Hr.
  pose proof (digits_of_nonempty (Z.abs ex)) as Hne.
  destruct (0 <=? ex)%Z eqn:E; simpl_append;
    unfold BigNumber.read_exponent; cbn [Ascii.eqb Bool.eqb]; cbv iota;
    rewrite Hne, Hr; cbn [option_map]; f_equal.
  - apply Z.leb_le in E. lia.
  - apply Z.leb_gt in E. lia.
Qed.

(** Reading a fraction [dd.ddd] cut out of the digits of [n]. *)
Lemma read_mantissa_fraction (n : Z) (i : nat) :
  (0 <= n)%Z -> (0 < i)%nat ->
  BigNumber.read_mantissa
    (JsNumber.take i (JsNumber.digits_of n) +:+
     String "." (JsNumber.drop i (JsNumber.digits_of n)))
  = Some (n, Z.of_nat (String.length (JsNumber.digits_of n) - i)).
Proof.
  intros Hn Hi.
  pose proof (read_digits_of n Hn) as Hr.
  pose proof (all_digits_of n) as Hd.
  pose proof (digits_of_nonempty n) as Hne.
  set (ds := JsNumber.digits_of n) in *.
  pose proof (take_drop i ds) as Htd.
  assert (Ht : all_digits (JsNumber.take i ds) = true
               /\ all_digits (JsNumber.drop i ds) = true).
  { apply andb_true_iff. rewrite <- all_digits_app, Htd. exact Hd. }
  destruct Ht as [Ht Hdr].
  unfold BigNumber.read_mantissa. rewrite split_at_dot by assumption.
  replace (BigNumber.nonempty (JsNumber.take i ds)) with true.
  2:{ destruct ds; [ discriminate Hne | ]. destruct i; [ lia | reflexivity ]. }
  cbn [orb].
  pose proof (read_digits_app 0 (JsNumber.take i ds) (JsNumber.drop i ds)) as Happ.
  rewrite Htd, Hr in Happ.
  destruct (BigNumber.read_digits 0 (JsNumber.take i ds)) as [v | ]; [ | discriminate Happ ].
  rewrite <- Happ. cbn [option_map]. now rewrite drop_length.
Qed.

(** Reading what [toString] prints for [s * 10^p]: the same number. *)
Lemma of_unsigned_format_positive (s p : Z) :
  (0 <= s)%Z ->
  exists c e,
    BigNumber.of_unsigned (JsNumber.format_positive s p) = Some (c, e)
    /\ ((c, e) = (s, p) \/ ((0 <= p)%Z /\ (c, e) = ((s * 10 ^ p)%Z, 0%Z))).
Proof.
  intros Hs.
  pose proof (read_digits_of s Hs) as Hr.
  pose proof (all_digits_of s) as Hd.
  pose proof (digits_of_nonempty s) as Hne.
  unfold JsNumber.format_positive.
  set (ds := JsNumber.digits_of s) in *.
  set (k := Z.of_nat (String.length ds)).
  assert (Hk : (0 < k)%Z).
  { subst k. destruct ds; [ discriminate Hne | cbn [String.length]; lia ]. }
  assert (He : forall a d, BigNumber.digit_of_ascii a = Some d -> BigNumber.is_e a = false).
  { intros a d E. now destruct (digit_is_plain a d E) as (_ & -> & _). }
  assert (Hdot : forall a d, BigNumber.digit_of_ascii a = Some d -> BigNumber.is_dot a = false).
  { intros a d E. now destruct (digit_is_plain a d E) as (-> & _). }
  cbv zeta.
  destruct ((k <=? p + k) && (p + k <=? 21))%Z eqn:B1;
    [ | destruct ((0 <? p + k) && (p + k <=? 21))%Z eqn:B2;
        [ | destruct ((-6 <? p + k) && (p + k <=? 0))%Z eqn:B3;
            [ | destruct (k =? 1)%Z eqn:B4 ] ] ].
  - (* ddd000 *)
    apply andb_true_iff in B1 as [B1 _]. apply Z.leb_le in B1.
    exists (s * 10 ^ p)%Z, 0%Z. split; [ | right; split; [ lia | reflexivity ] ].
    unfold BigNumber.of_unsigned.
    rewrite split_at_digits by (auto; rewrite all_digits_app, all_digits_zeros, Hd; reflexivity).
    unfold BigNumber.read_mantissa.
    rewrite split_at_digits by (auto; rewrite all_digits_app, all_digits_zeros, Hd; reflexivity).
    replace (BigNumber.nonempty (ds +:+ _)) with true
      by (destruct ds; [ discriminate Hne | reflexivity ]).
    rewrite read_digits_app, Hr, read_digits_zeros. cbn [option_map].
    rewrite Z2Nat.id by lia. replace (p + k - k)%Z with p by lia. reflexivity.
  - (* dd.ddd *)
    apply andb_true_iff in B2 as [B2 B2']. apply Z.ltb_lt in B2. rewrite B2' in B1.
    rewrite andb_true_r in B1. apply Z.leb_gt in B1.
    exists s, p. split; [ | now left ].
    unfold BigNumber.of_unsigned.
    change (JsNumber.take (Z.to_nat (p + k)) ds +:+ "." +:+ JsNumber.drop (Z.to_nat (p + k)) ds)
      with (JsNumber.take (Z.to_nat (p + k)) ds +:+
            String "." (JsNumber.drop (Z.to_nat (p + k)) ds)).
    assert (Ht : all_digits (JsNumber.take (Z.to_nat (p + k)) ds) = true
                 /\ all_digits (JsNumber.drop (Z.to_nat (p + k)) ds) = true).
    { apply andb_true_iff. rewrite <- all_digits_app, take_drop. exact Hd. }
    destruct Ht as [Ht Hdr].
    rewrite split_at_e_fraction by assumption.
    subst ds. rewrite read_mantissa_fraction by lia.
    do 2 f_equal. subst k. lia.
  - (* 0.000ddd *)
    apply andb_true_iff in B3 as [B3 B3']. apply Z.ltb_lt in B3. apply Z.leb_le in B3'.
    exists s, p. split; [ | now left ].
    unfold BigNumber.of_unsigned.
    change ("0." +:+ JsNumber.zeros (Z.to_nat (- (p + k))) +:+ ds)
      with ("0" +:+ String "." (JsNumber.zeros (Z.to_nat (- (p + k))) +:+ ds)).
    rewrite split_at_e_fraction
      by (rewrite ?all_digits_app, ?all_digits_zeros, ?Hd; reflexivity).
    unfold BigNumber.read_mantissa. rewrite split_at_dot by reflexivity.
    cbn [BigNumber.nonempty orb]. change (BigNumber.read_digits 0 "0") with (Some 0%Z).
    cbv beta iota. rewrite read_digits_app, read_digits_zeros, Z.mul_0_l, Hr.
    cbn [option_map]. rewrite append_length, zeros_length.
    do 2 f_equal. subst k. lia.
  - (* de+x *)
    apply Z.eqb_eq in B4.
    exists s, p. split; [ | now left ].
    unfold BigNumber.of_unsigned.
    change (ds +:+ "e" +:+ ?x) with (ds +:+ String "e" x).
    rewrite split_at_e_found by assumption.
    unfold BigNumber.read_mantissa. rewrite split_at_digits by auto.
    rewrite Hne, Hr. cbn [option_map]. rewrite read_exponent_signed.
    do 2 f_equal. lia.
  - (* d.ddde+x *)
    apply Z.eqb_neq in B4.
    exists s, p. split; [ | now left ].
    unfold BigNumber.of_unsigned.
    change (JsNumber.take 1 ds +:+ "." +:+ JsNumber.drop 1 ds +:+ "e" +:+ ?x)
      with (JsNumber.take 1 ds +:+ String "." (JsNumber.drop 1 ds +:+ String "e" x)).
    assert (Ht : all_digits (JsNumber.take 1 ds) = true
                 /\ all_digits (JsNumber.drop 1 ds) = true).
    { apply andb_true_iff. rewrite <- all_digits_app, take_drop. exact Hd. }
    destruct Ht as [Ht Hdr].
    rewrite split_at_e_found_fraction by assumption.
    subst ds. rewrite read_mantissa_fraction by lia.
    rewrite read_exponent_signed. do 2 f_equal. subst k. lia.
Qed.

Lemma toQ_shift (s p : Z) :
  (0 <= p)%Z -> (BigNumber.toQ (s * 10 ^ p) 0 == BigNumber.toQ s p)%Q.
Proof.
  intros Hp. unfold BigNumber.toQ, JsNumber.pow10Q.
  rewrite inject_Z_mult, Zpower_Qpower by assumption.
  change (inject_Z 10 ^ 0)%Q with 1%Q. ring.
Qed.

Lemma toQ_opp (c e : Z) : (BigNumber.toQ (- c) e == - BigNumber.toQ c e)%Q.
Proof. unfold BigNumber.toQ. rewrite inject_Z_opp. ring. Qed.

(** [new BigNumber(x)] of a finite double is finite and denotes the decimal
    that JavaScript prints for [x]. *)
Lemma of_number_decimal (x : JsNumber.number) (s p : Z) :
  JsNumber.decimal x = Some (s, p) ->
  exists c e, BigNumber.of_number x = BigNumber.Finite c e
              /\ (BigNumber.toQ c e == BigNumber.toQ s p)%Q.
Proof.
  unfold JsNumber.decimal, BigNumber.of_number, JsNumber.toString.
  destruct (Prim2SF x) as [sg | sg | | sg m e]; try discriminate.
  - intros [= <- <-]. exists 0%Z, 0%Z. split; reflexivity.
  - pose proof (shortest_nonneg m e) as Hs.
    destruct (JsNumber.shortest m e) as [s0 p0]. cbn [fst] in Hs.
    intros [= <- <-].
    destruct (of_unsigned_format_positive s0 p0 Hs) as (c & e' & Hu & Hce).
    apply of_string_unsigned in Hu as [Hpos Hneg].
    destruct sg.
    + change ("-" +:+ ?t) with (String "-" t). rewrite Hneg.
      destruct (normalize_value (- c) e') as (c2 & e2 & Hn & Hv).
      exists c2, e2. split; [ exact Hn | ]. rewrite Hv, !toQ_opp.
      destruct Hce as [[= -> ->] | [Hp [= -> ->]]]; [ reflexivity | ].
      now rewrite toQ_shift.
    + change ("" +:+ ?t) with t. rewrite Hpos.
      destruct (normalize_value c e') as (c2 & e2 & Hn & Hv).
      exists c2, e2. split; [ exact Hn | ]. rewrite Hv.
      destruct Hce as [[= -> ->] | [Hp [= -> ->]]]; [ reflexivity | ].
      now rewrite toQ_shift.
Qed.

(** The plain notation of a BigNumber reads back as that BigNumber. *)
Lemma of_string_toFixed (c e : Z) :
  normal c e -> BigNumber.of_string (BigNumber.toFixed (BigNumber.Finite c e))
                = BigNumber.Finite c e.
Proof.
  intros Hn. cbn [BigNumber.toFixed].
  pose proof (of_unsigned_toFixedPoint (Z.abs c) e (Z.abs_nonneg c)) as H.
  assert (Hk : forall x, (0 < e)%Z -> (x mod 10 <> 0)%Z ->
                         BigNumber.normalize (x * 10 ^ e) 0 = BigNumber.Finite x e).
  { intros x He Hx. rewrite <- (Z2Nat.id e) at 1 2 by lia. now apply normalize_pow10. }
  destruct (0 <? e)%Z eqn:He;
    [ apply Z.ltb_lt in He | apply Z.ltb_ge in He ];
    apply of_string_unsigned in H as [Hpos Hneg];
    (destruct (c <? 0)%Z eqn:Ec;
     [ apply Z.ltb_lt in Ec; change ("-" +:+ ?s) with (String "-" s); rewrite Hneg
     | apply Z.ltb_ge in Ec; rewrite Hpos, Z.abs_eq by assumption ]).
  - assert (Hc : (c mod 10 <> 0)%Z) by (destruct Hn as [[-> _] | Hc]; [ lia | exact Hc ]).
    rewrite <- Z.mul_opp_l, Z.abs_neq, Z.opp_involutive by lia. now apply Hk.
  - destruct Hn as [[-> ->] | Hc]; [ lia | now apply Hk ].
  - rewrite Z.abs_neq, Z.opp_involutive by lia. now apply normalize_normal.
  - now apply normalize_normal.
Qed.

(** Plain double arithmetic would have sent another value. *)
Remark double_arithmetic_rounds :
  JsNumber.toString (3 * Examples.price_0_1 * JsNumber.ten_pow_18)%float
  = "300000000000000060"%string.
Proof. vm_compute. reflexivity. Qed.

(** The price query answers in wei and the provider divides by 10^18 in
    doubles: a price of 10^17 wei gives the double 0.1, and three tokens then
    cost exactly 3 * 10^17 wei. *)
Remark price_of_a_tenth :
  pricePerToken (final (on_price 1e17%float (initial ∅))) = Examples.price_0_1
  /\ buy_value 3%float (pricePerToken (final (on_price 1e17%float (initial ∅))))
     = "300000000000000000"%string.
Proof. split; vm_compute; reflexivity. Qed.

(** The exactness is relative to [pricePerToken]: a price in wei with more
    digits than a double holds is already rounded when it reaches [mint]. *)
Remark price_of_eighteen_digits :
  buy_value 1%float (123456789012345678 / JsNumber.ten_pow_18)%float
  = "123456789012345680"%string.
Proof. vm_compute. reflexivity. Qed.

(** C2. Whenever mint submits the buy transaction, the value string it sends,
    read as a decimal numeral, is exactly the product of the price, the
    amount (both as the decimals JavaScript prints for them) and 10^18: the
    BigNumber product and its plain notation round nothing.  For the price
    0.1 and the amount 3 the string is 300000000000000000. *)
Theorem mint_buy_value_exact (account : option AccountInfo)
    (price : JsNumber.number) (env : MintEnv) (amt : JsNumber.number) (st : State)
    (n : JsNumber.number) (f v : string) (sa pa sp pp : Z) :
  In (Send_buy n f v) (events (mint account price env amt st)) ->
  JsNumber.decimal amt = Some (sa, pa) ->
  JsNumber.decimal price = Some (sp, pp) ->
  (exists c e,
      BigNumber.of_string v = BigNumber.Finite c e
      /\ (BigNumber.toQ c e
          == BigNumber.toQ sp pp * BigNumber.toQ sa pa * inject_Z (10 ^ 18))%Q)
  /\ (price = Examples.price_0_1 -> amt = 3%float ->
      v = "300000000000000000"%string).
Proof.
  intros Hin Ha Hp.
  apply mint_buy_inv in Hin as (_ & _ & ->).
  split; [ | intros -> ->; vm_compute; reflexivity ].
  apply of_number_decimal in Ha as (ca & ea & Ha & Va).
  apply of_number_decimal in Hp as (cp & ep & Hp & Vp).
  unfold buy_value. fold (BigNumber.of_number amt).
  rewrite Ha, Hp, ten_pow_18_exact.
  destruct (times_exact ca ea cp ep) as (c1 & e1 & H1 & V1). rewrite H1.
  destruct (times_exact c1 e1 1 18) as (c & e & H2 & V2). rewrite H2.
  exists c, e. split.
  - apply of_string_toFixed. unfold BigNumber.times in H2.
    now apply normalize_is_normal in H2.
  - rewrite V2, V1, Va, Vp. unfold BigNumber.toQ at 3. unfold JsNumber.pow10Q.
    change (inject_Z 10 ^ 18)%Q with (inject_Z (10 ^ 18)). ring.
Qed.

Lemma mint_buy_value_exact_witness :
  In (Send_buy 3%float Examples.alice_address "300000000000000000")
     (events (mint (Some Examples.alice) Examples.price_0_1
                (Examples.answers false 100 10 5) 3%float (initial ∅)))
  /\ JsNumber.decimal 3%float = Some (3, 0)%Z
  /\ JsNumber.decimal Examples.price_0_1 = Some (1, -1)%Z
  /\ (exists c e,
        BigNumber.of_string "300000000000000000" = BigNumber.Finite c e
        /\ (BigNumber.toQ c e
            == BigNumber.toQ 1 (-1) * BigNumber.toQ 3 0 * inject_Z (10 ^ 18))%Q).
Proof.
  assert (H : In (Send_buy 3%float Examples.alice_address "300000000000000000")
                (events (mint (Some Examples.alice) Examples.price_0_1
                           (Examples.answers false 100 10 5) 3%float (initial ∅)))).
  { vm_compute. do 6 right. left. reflexivity. }
  split; [ exact H | ].
  split; [ vm_compute; reflexivity | split; [ vm_compute; reflexivity | ] ].
  apply (mint_buy_value_exact (Some Examples.alice) Examples.price_0_1
           (Examples.answers false 100 10 5) 3%float (initial ∅) 3%float
           Examples.alice_address "300000000000000000" 3 0 1 (-1) H);
    vm_compute; reflexivity.
Defined.


(** * Further properties of the callbacks *)

(** ** mint: what every run keeps *)

Ltac split_env env := destruct env as [p a t b h r].

Ltac close_cases :=
  repeat match goal with
    | H : _ \/ _ |- _ => destruct H
    | H : False |- _ => destruct H
    | H : _ /\ _ |- _ => destruct H
    end; try discriminate; try congruence.

(** Whatever the contract and the wallet answer, mint changes no cell of the
    state other than the in-progress flag, and leaves the storage alone. *)
Theorem mint_only_touches_isMinting (acc : option AccountInfo)
    (price : JsNumber.number) (env : MintEnv) (amt : JsNumber.number) (st : State) :
  final (mint acc price env amt st)
    = mkState (account st) (currentSubsriber st) (pricePerToken st)
        (isMinting (final (mint acc price env amt st))) (localStorage st)
  /\ existsb is_foreign_setter (events (mint acc price env amt st)) = false.
Proof.
  split_env env. destruct st as [ac su pr mi ls].
  unfold_run. repeat step_run; split; reflexivity.
Qed.

(** With a connected account the flag tells how the call ended: it is reset
    exactly when mint returns, and left set exactly when mint throws. *)
Theorem mint_flag_discipline (acc : option AccountInfo)
    (price : JsNumber.number) (env : MintEnv) (amt : JsNumber.number) (st : State)
    (addr : string) :
  truthy_address acc = Some addr ->
  isMinting (final (mint acc price env amt st))
  = match outcome (mint acc price env amt st) with
    | Returned _ => false
    | Thrown _ => true
    end.
Proof.
  intros Ha. split_env env. unfold mint. rewrite Ha.
  unfold_run. repeat step_run; reflexivity.
Qed.

Lemma mint_flag_discipline_witness :
  outcome (mint (Some Examples.alice) Examples.price_0_1 Examples.paused_query_fails
             1%float (initial ∅))
  = Thrown (Rejection "Internal JSON-RPC error.")
  /\ isMinting (final (mint (Some Examples.alice) Examples.price_0_1
                         Examples.paused_query_fails 1%float (initial ∅)))
     = match outcome (mint (Some Examples.alice) Examples.price_0_1
                        Examples.paused_query_fails 1%float (initial ∅)) with
       | Returned _ => false
       | Thrown _ => true
       end.
Proof.
  split; [ reflexivity | ].
  apply (mint_flag_discipline (Some Examples.alice) Examples.price_0_1
           Examples.paused_query_fails 1%float (initial ∅) Examples.alice_address).
  reflexivity.
Defined.

(** A call that returns without sending a buy transaction shows exactly one
    toast; a call that throws shows none; a call that sends the buy
    transaction shows at most the hash toast and the success toast. *)
Theorem mint_toasts (acc : option AccountInfo)
    (price : JsNumber.number) (env : MintEnv) (amt : JsNumber.number) (st : State) :
  match outcome (mint acc price env amt st) with
  | Thrown _ => toasts (events (mint acc price env amt st)) = 0%nat
  | Returned _ =>
      if existsb is_buy (events (mint acc price env amt st))
      then (toasts (events (mint acc price env amt st)) <= 2)%nat
      else toasts (events (mint acc price env amt st)) = 1%nat
  end.
Proof.
  split_env env. unfold_run. repeat step_run; cbn; auto.
Qed.

(** ** mint: when the buy transaction is sent *)

(** With a connected account the buy transaction is sent exactly when the
    contract is not paused, the remaining supply is not below the amount and
    the balance is above price * amount; it is then sent once, after the
    paused, supply and balance queries, in this order. *)
Theorem mint_buys_iff_checks_pass (acc : option AccountInfo)
    (price : JsNumber.number) (env : MintEnv) (amt : JsNumber.number) (st : State)
    (addr : string) :
  truthy_address acc = Some addr ->
  (existsb is_buy (events (mint acc price env amt st)) = true
   <-> paused env = Returned false
       /\ exists a t b,
            allowedToExist env = Returned a
            /\ totalSupply env = Returned t
            /\ (a - t <? amt)%float = false
            /\ getMaticBalance env addr = Returned b
            /\ (b <=? price * amt)%float = false)
  /\ (existsb is_buy (events (mint acc price env amt st)) = true ->
      exists rest,
        events (mint acc price env amt st)
          = [SetIsMinting true; GetContract; Call Paused; Call AllowedToExist;
             Call TotalSupply; GetMaticBalance addr;
             Send_buy amt addr (buy_value amt price)] ++ rest
        /\ existsb is_contract_call rest = false).
Proof.
  intros Ha. split_env env. unfold mint. rewrite Ha. unfold_run.
  split; [ split | ].
  - intros H. repeat step_run; try discriminate H;
      (split; [ reflexivity | eexists _, _, _; repeat split; eassumption ]).
  - intros (Hp & a0 & t0 & b0 & Hal & Hts & Hlt & Hb & Hle).
    rewrite Hp; cbn. rewrite Hal; cbn. rewrite Hts; cbn. rewrite Hlt; cbn.
    rewrite Hb; cbn. rewrite Hle; cbn. repeat step_run; reflexivity.
  - intros H. repeat step_run; try discriminate H; eexists; split; reflexivity.
Qed.

Lemma mint_buys_iff_checks_pass_witness :
  truthy_address (Some Examples.alice) = Some Examples.alice_address
  /\ (existsb is_buy
        (events (mint (Some Examples.alice) Examples.price_0_1
                   (Examples.answers false 100 10 5) 3%float (initial ∅))) = true
      <-> paused (Examples.answers false 100 10 5) = Returned false
          /\ exists a t b,
               allowedToExist (Examples.answers false 100 10 5) = Returned a
               /\ totalSupply (Examples.answers false 100 10 5) = Returned t
               /\ (a - t <? 3)%float = false
               /\ getMaticBalance (Examples.answers false 100 10 5) Examples.alice_address
                  = Returned b
               /\ (b <=? Examples.price_0_1 * 3)%float = false).
Proof.
  split; [ reflexivity | ].
  apply (mint_buys_iff_checks_pass (Some Examples.alice) Examples.price_0_1
           (Examples.answers false 100 10 5) 3%float (initial ∅) Examples.alice_address).
  reflexivity.
Defined.

(** Once the buy transaction is sent: the hash toast is shown when the wallet
    reports a hash, a receipt with an array of transfers gives the multiply
    toast, a receipt with one transfer gives the single toast with its token
    id, and in both cases mint returns with the flag reset. *)
Theorem mint_success_toasts (acc : option AccountInfo)
    (price : JsNumber.number) (env : MintEnv) (amt : JsNumber.number) (st : State) :
  existsb is_buy (events (mint acc price env amt st)) = true ->
  (forall h, transactionHash env = Some h ->
     In (Notify (TxHash h) (Some info) (Some 10000) None)
        (events (mint acc price env amt st)))
  /\ (receipt env = Returned Transfer_array ->
      In (Notify MintSuccess_multiply (Some success) (Some 10000) None)
         (events (mint acc price env amt st))
      /\ outcome (mint acc price env amt st) = Returned tt
      /\ isMinting (final (mint acc price env amt st)) = false)
  /\ (forall tokenId, receipt env = Returned (Transfer_event tokenId) ->
      In (Notify (MintSuccess_single tokenId) (Some success) (Some 10000) None)
         (events (mint acc price env amt st))
      /\ outcome (mint acc price env amt st) = Returned tt
      /\ isMinting (final (mint acc price env amt st)) = false).
Proof.
  intros H. split_env env. unfold_run.
  repeat step_run; try discriminate H;
    (split; [ intros ? [= <-] || intros ? [=]; cbn; tauto | ]);
    (split; [ intros [=]; cbn; tauto | intros ? [=]; subst; cbn; tauto ]).
Qed.

Lemma mint_success_toasts_witness :
  existsb is_buy
    (events (mint (Some Examples.alice) Examples.price_0_1 Examples.buy_many
               5%float (initial ∅))) = true
  /\ (receipt Examples.buy_many = Returned Transfer_array ->
      In (Notify MintSuccess_multiply (Some success) (Some 10000) None)
         (events (mint (Some Examples.alice) Examples.price_0_1 Examples.buy_many
                    5%float (initial ∅)))
      /\ outcome (mint (Some Examples.alice) Examples.price_0_1 Examples.buy_many
                    5%float (initial ∅)) = Returned tt
      /\ isMinting (final (mint (Some Examples.alice) Examples.price_0_1
                             Examples.buy_many 5%float (initial ∅))) = false).
Proof.
  assert (H : existsb is_buy
                (events (mint (Some Examples.alice) Examples.price_0_1 Examples.buy_many
                           5%float (initial ∅))) = true) by (vm_compute; reflexivity).
  split; [ exact H | ].
  apply (mint_success_toasts (Some Examples.alice) Examples.price_0_1 Examples.buy_many
           5%float (initial ∅) H).
Defined.

(** A buy transaction that is rejected or reverted, or whose receipt has no
    transfer to read, ends the call quietly: mint returns, the flag is reset,
    and neither a success toast nor an error toast is shown. *)
Theorem mint_buy_failure_is_silent (acc : option AccountInfo)
    (price : JsNumber.number) (env : MintEnv) (amt : JsNumber.number) (st : State) :
  existsb is_buy (events (mint acc price env amt st)) = true ->
  (exists e, receipt env = Thrown e) \/ receipt env = Returned Transfer_undefined ->
  outcome (mint acc price env amt st) = Returned tt
  /\ isMinting (final (mint acc price env amt st)) = false
  /\ existsb is_success_notification (events (mint acc price env amt st)) = false
  /\ existsb is_error_notification (events (mint acc price env amt st)) = false.
Proof.
  intros H Hr. split_env env. unfold_run. cbn in Hr.
  repeat step_run; try discriminate H;
    destruct Hr as [[e' Hr] | Hr]; try discriminate Hr; repeat split.
Qed.

Lemma mint_buy_failure_is_silent_witness :
  existsb is_buy
    (events (mint (Some Examples.alice) Examples.price_0_1 Examples.buy_reverts
               3%float (initial ∅))) = true
  /\ outcome (mint (Some Examples.alice) Examples.price_0_1 Examples.buy_reverts
                3%float (initial ∅)) = Returned tt
  /\ isMinting (final (mint (Some Examples.alice) Examples.price_0_1 Examples.buy_reverts
                         3%float (initial ∅))) = false
  /\ existsb is_success_notification
       (events (mint (Some Examples.alice) Examples.price_0_1 Examples.buy_reverts
                  3%float (initial ∅))) = false
  /\ existsb is_error_notification
       (events (mint (Some Examples.alice) Examples.price_0_1 Examples.buy_reverts
                  3%float (initial ∅))) = false.
Proof.
  assert (H : existsb is_buy
                (events (mint (Some Examples.alice) Examples.price_0_1
                           Examples.buy_reverts 3%float (initial ∅))) = true)
    by (vm_compute; reflexivity).
  split; [ exact H | ].
  apply (mint_buy_failure_is_silent (Some Examples.alice) Examples.price_0_1
           Examples.buy_reverts 3%float (initial ∅) H).
  left. eexists. reflexivity.
Defined.

Lemma mint_read_failure_escapes_witness :
  outcome (mint (Some Examples.alice) Examples.price_0_1 Examples.paused_query_fails
             1%float (initial ∅))
  = Thrown (Rejection "Internal JSON-RPC error.")
  /\ isMinting (final (mint (Some Examples.alice) Examples.price_0_1
                         Examples.paused_query_fails 1%float (initial ∅))) = true
  /\ existsb is_notification
       (events (mint (Some Examples.alice) Examples.price_0_1
                  Examples.paused_query_fails 1%float (initial ∅))) = false.
Proof.
  apply (mint_read_failure_escapes (Some Examples.alice) Examples.price_0_1
           Examples.paused_query_fails 1%float (initial ∅) Examples.alice_address).
  - reflexivity.
  - left. reflexivity.
Defined.

(** ** mint: amounts and answers that the checks let through *)

Lemma buy_value_zero (price : JsNumber.number) (sp pp : Z) :
  JsNumber.decimal price = Some (sp, pp) -> buy_value 0%float price = "0"%string.
Proof.
  intros Hp. apply of_number_decimal in Hp as (cp & ep & Hp & _).
  unfold buy_value. rewrite Hp, ten_pow_18_exact.
  change (BigNumber.of_string (JsNumber.toString 0%float)) with (BigNumber.Finite 0 0).
  cbn [BigNumber.times]. rewrite Z.mul_0_l. reflexivity.
Qed.

(** The amount is not validated: an amount of zero is never answered by the
    sold-out toast, not even when nothing is left, and with any balance above
    price * 0 the buy transaction is sent for zero tokens with the value 0. *)
Theorem mint_zero_amount_is_sent (acc : option AccountInfo)
    (price : JsNumber.number) (env : MintEnv) (st : State)
    (addr : string) (a t b : JsNumber.number) (sp pp : Z) :
  truthy_address acc = Some addr ->
  paused env = Returned false ->
  allowedToExist env = Returned a ->
  totalSupply env = Returned t ->
  (a - t <? 0)%float = false ->
  getMaticBalance env addr = Returned b ->
  (b <=? price * 0)%float = false ->
  JsNumber.decimal price = Some (sp, pp) ->
  In (Send_buy 0%float addr "0") (events (mint acc price env 0%float st))
  /\ ~ In (Notify (Text "All NFTs have been sold!") None None None)
         (events (mint acc price env 0%float st)).
Proof.
  intros Ha Hp Hal Hts Hlt Hb Hle Hd.
  apply buy_value_zero in Hd.
  unfold mint. rewrite Ha. unfold_run. rewrite Hp; cbn. rewrite Hal; cbn.
  rewrite Hts; cbn. rewrite Hlt; cbn. rewrite Hb; cbn. rewrite Hle; cbn. rewrite Hd.
  repeat step_run; split; try tauto; intros H; close_cases.
Qed.

Lemma mint_zero_amount_is_sent_witness :
  (100 - 100 <? 0)%float = false
  /\ (5 <=? Examples.price_0_1 * 0)%float = false
  /\ In (Send_buy 0%float Examples.alice_address "0")
        (events (mint (Some Examples.alice) Examples.price_0_1
                   (Examples.answers false 100 100 5) 0%float (initial ∅)))
  /\ ~ In (Notify (Text "All NFTs have been sold!") None None None)
         (events (mint (Some Examples.alice) Examples.price_0_1
                    (Examples.answers false 100 100 5) 0%float (initial ∅))).
Proof.
  split; [ reflexivity | split; [ reflexivity | ] ].
  apply (mint_zero_amount_is_sent (Some Examples.alice) Examples.price_0_1
           (Examples.answers false 100 100 5) (initial ∅) Examples.alice_address
           100%float 100%float 5%float 1 (-1)); reflexivity.
Defined.

(** A balance that is not a number passes the funds check: every comparison
    with NaN is false, so the buy transaction is sent. *)
Theorem mint_nan_balance_is_sent (acc : option AccountInfo)
    (price : JsNumber.number) (env : MintEnv) (amt : JsNumber.number) (st : State)
    (addr : string) (a t b : JsNumber.number) :
  truthy_address acc = Some addr ->
  paused env = Returned false ->
  allowedToExist env = Returned a ->
  totalSupply env = Returned t ->
  (a - t <? amt)%float = false ->
  getMaticBalance env addr = Returned b ->
  Prim2SF b = S754_nan ->
  In (Send_buy amt addr (buy_value amt price)) (events (mint acc price env amt st))
  /\ ~ In (Notify (not_enough_money amt) None None None)
         (events (mint acc price env amt st)).
Proof.
  intros Ha Hp Hal Hts Hlt Hb Hnan.
  assert (Hle : (b <=? price * amt)%float = false).
  { rewrite FloatAxioms.leb_spec, Hnan. reflexivity. }
  unfold mint. rewrite Ha. unfold_run. rewrite Hp; cbn. rewrite Hal; cbn.
  rewrite Hts; cbn. rewrite Hlt; cbn. rewrite Hb; cbn. rewrite Hle; cbn.
  repeat step_run; split; try tauto; intros H; close_cases.
Qed.

Lemma mint_nan_balance_is_sent_witness :
  Prim2SF (0 / 0)%float = S754_nan
  /\ In (Send_buy 3%float Examples.alice_address (buy_value 3%float Examples.price_0_1))
        (events (mint (Some Examples.alice) Examples.price_0_1
                   (Examples.answers false 100 10 (0 / 0)) 3%float (initial ∅))).
Proof.
  split; [ reflexivity | ].
  apply (mint_nan_balance_is_sent (Some Examples.alice) Examples.price_0_1
           (Examples.answers false 100 10 (0 / 0)) 3%float (initial ∅)
           Examples.alice_address 100%float 10%float (0 / 0)%float);
    reflexivity.
Defined.

(** ** mint: the retry that the offer carries *)

Lemma ltb_irrefl (x : float) : (x <? x)%float = false.
Proof.
  rewrite FloatAxioms.ltb_spec. unfold SFltb.
  destruct (Prim2SF x) as [s | s | | s m e]; try destruct s; cbn;
    rewrite ?Z.compare_refl, ?Pos.compare_cont_refl, ?Pos.compare_refl; reflexivity.
Qed.

(** The retry asks for what was left.  Against an unchanged supply it passes
    the supply check: it is answered neither by another offer nor by the
    sold-out toast, and goes on to query the balance. *)
Theorem retry_passes_the_supply_check (acc : option AccountInfo)
    (price : JsNumber.number) (env' : MintEnv) (st' : State)
    (addr : string) (a t : JsNumber.number) :
  truthy_address acc = Some addr ->
  paused env' = Returned false ->
  allowedToExist env' = Returned a ->
  totalSupply env' = Returned t ->
  In (GetMaticBalance addr)
     (events (run_callback (RetryMint acc price (a - t)%float) env' st'))
  /\ existsb offers_retry
       (events (run_callback (RetryMint acc price (a - t)%float) env' st')) = false
  /\ ~ In (Notify (Text "All NFTs have been sold!") None None None)
         (events (run_callback (RetryMint acc price (a - t)%float) env' st')).
Proof.
  intros Ha Hp Hal Hts. cbn [run_callback].
  unfold mint. rewrite Ha. unfold_run. rewrite Hp; cbn. rewrite Hal; cbn.
  rewrite Hts; cbn. rewrite ltb_irrefl; cbn.
  repeat step_run; (split; [ tauto | split; [ reflexivity | intros H; close_cases ] ]).
Qed.

Lemma retry_passes_the_supply_check_witness :
  In (GetMaticBalance Examples.alice_address)
     (events (run_callback (RetryMint (Some Examples.alice) Examples.price_0_1
                              (100 - 98)%float)
                (Examples.answers false 100 98 5) (initial ∅)))
  /\ existsb offers_retry
       (events (run_callback (RetryMint (Some Examples.alice) Examples.price_0_1
                                (100 - 98)%float)
                  (Examples.answers false 100 98 5) (initial ∅))) = false
  /\ ~ In (Notify (Text "All NFTs have been sold!") None None None)
         (events (run_callback (RetryMint (Some Examples.alice) Examples.price_0_1
                                  (100 - 98)%float)
                    (Examples.answers false 100 98 5) (initial ∅))).
Proof.
  apply (retry_passes_the_supply_check (Some Examples.alice) Examples.price_0_1
           (Examples.answers false 100 98 5) (initial ∅) Examples.alice_address
           100%float 98%float); reflexivity.
Defined.

(** ** connect *)

(** When the wallet service declines to connect, connect stops there: it
    returns, the state is as before, and neither the account is queried nor a
    subscription made. *)
Theorem connect_declined_changes_nothing (env : WalletEnv) (provider : IProviders)
    (st : State) :
  initWalletConnect env provider = Returned false ->
  final (connect env provider st) = st
  /\ outcome (connect env provider st) = Returned tt
  /\ existsb is_setter (events (connect env provider st)) = false
  /\ ~ In GetAccount (events (connect env provider st))
  /\ ~ In EventSubscribe (events (connect env provider st)).
Proof.
  intros Hi. unfold connect. unfold_run.
  destruct provider; [ destruct (window_ethereum env) | ]; cbn;
    rewrite Hi; cbn; repeat split; try reflexivity; intros H; close_cases.
Qed.

Lemma connect_declined_changes_nothing_witness :
  final (connect Examples.no_metamask WalletConnect Examples.connected)
  = Examples.connected
  /\ outcome (connect Examples.no_metamask WalletConnect Examples.connected)
     = Returned tt
  /\ existsb is_setter
       (events (connect Examples.no_metamask WalletConnect Examples.connected)) = false
  /\ ~ In GetAccount
         (events (connect Examples.no_metamask WalletConnect Examples.connected))
  /\ ~ In EventSubscribe
         (events (connect Examples.no_metamask WalletConnect Examples.connected)).
Proof.
  apply (connect_declined_changes_nothing Examples.no_metamask WalletConnect
           Examples.connected).
  reflexivity.
Defined.

(** The initialisation of the wallet service is awaited outside the try
    block: when it throws, the exception leaves connect, nothing is logged
    and the state is as before. *)
Theorem connect_init_failure_escapes (env : WalletEnv) (provider : IProviders)
    (st : State) (e : Exn) :
  initWalletConnect env provider = Thrown e ->
  outcome (connect env provider st) = Thrown e
  /\ final (connect env provider st) = st
  /\ ~ In (ConsoleLog e) (events (connect env provider st)).
Proof.
  intros Hi. unfold connect. unfold_run.
  destruct provider; [ destruct (window_ethereum env) | ]; cbn;
    rewrite Hi; cbn; repeat split; intros H; close_cases.
Qed.

Lemma connect_init_failure_escapes_witness :
  outcome (connect Examples.init_fails MetaMask (initial ∅))
  = Thrown (Rejection "No provider")
  /\ final (connect Examples.init_fails MetaMask (initial ∅)) = initial ∅
  /\ ~ In (ConsoleLog (Rejection "No provider"))
         (events (connect Examples.init_fails MetaMask (initial ∅))).
Proof.
  apply (connect_init_failure_escapes Examples.init_fails MetaMask (initial ∅)).
  reflexivity.
Defined.

(** Once the wallet service has connected, a failing account query is caught:
    connect returns, the exception is logged to the console, no toast is
    shown, no subscription is made and the state is as before. *)
Theorem connect_account_failure_is_logged (env : WalletEnv) (provider : IProviders)
    (st : State) (e : Exn) :
  initWalletConnect env provider = Returned true ->
  getAccount env = Thrown e ->
  outcome (connect env provider st) = Returned tt
  /\ final (connect env provider st) = st
  /\ In (ConsoleLog e) (events (connect env provider st))
  /\ existsb is_success_notification (events (connect env provider st)) = false
  /\ ~ In EventSubscribe (events (connect env provider st)).
Proof.
  intros Hi Hg. unfold connect. unfold_run.
  destruct provider; [ destruct (window_ethereum env) | ]; cbn;
    rewrite Hi; cbn; rewrite Hg; cbn; repeat split; try tauto; intros H; close_cases.
Qed.

Lemma connect_account_failure_is_logged_witness :
  outcome (connect Examples.account_query_fails MetaMask (initial ∅)) = Returned tt
  /\ final (connect Examples.account_query_fails MetaMask (initial ∅)) = initial ∅
  /\ In (ConsoleLog (Rejection "User closed modal"))
        (events (connect Examples.account_query_fails MetaMask (initial ∅)))
  /\ existsb is_success_notification
       (events (connect Examples.account_query_fails MetaMask (initial ∅))) = false
  /\ ~ In EventSubscribe
         (events (connect Examples.account_query_fails MetaMask (initial ∅))).
Proof.
  apply (connect_account_failure_is_logged Examples.account_query_fails MetaMask
           (initial ∅)); reflexivity.
Defined.

(** A successful connect stores the account and its subscription handle and
    writes the account's type under providerType; the price and the flag are
    untouched, and the stored account passes the connected check of mint. *)
Theorem connect_stores_account (env : WalletEnv) (provider : IProviders)
    (st : State) (info : AccountInfo) (c : ascii) (s : string) :
  initWalletConnect env provider = Returned true ->
  getAccount env = Returned info ->
  address info = Some (String c s) ->
  final (connect env provider st)
    = mkState (Some info) (Some (subscribe env)) (pricePerToken st) (isMinting st)
        (<["providerType"%string := default "undefined"%string (type info)]>
           (localStorage st))
  /\ localStorage (final (connect env provider st)) !! "providerType"%string
     = Some (default "undefined"%string (type info))
  /\ truthy_address (account (final (connect env provider st))) = Some (String c s)
  /\ outcome (connect env provider st) = Returned tt
  /\ In (Notify (Text ("Wallet connected: " +:+ slice_0_5 (String c s) +:+ "..."
                        +:+ slice_m5 (String c s)))
           (Some success) None None)
        (events (connect env provider st)).
Proof.
  intros Hi Hg Had.
  assert (E : final (connect env provider st)
    = mkState (Some info) (Some (subscribe env)) (pricePerToken st) (isMinting st)
        (<["providerType"%string := default "undefined"%string (type info)]>
           (localStorage st))
    /\ outcome (connect env provider st) = Returned tt
    /\ In (Notify (Text ("Wallet connected: " +:+ slice_0_5 (String c s) +:+ "..."
                          +:+ slice_m5 (String c s)))
             (Some success) None None)
          (events (connect env provider st))).
  { unfold connect. unfold_run.
    destruct provider; [ destruct (window_ethereum env) | ]; cbn;
      rewrite Hi; cbn; rewrite Hg; cbn; rewrite Had; cbn; repeat split; tauto. }
  destruct E as (E & Ho & Hn). rewrite E. cbn [localStorage account].
  repeat split; auto.
  - apply lookup_insert_eq.
  - unfold truthy_address. now rewrite Had.
Qed.

Lemma connect_stores_account_witness :
  localStorage (final (connect Examples.metamask_accepts MetaMask (initial ∅)))
    !! "providerType"%string = Some "MetaMask"%string
  /\ truthy_address (account (final (connect Examples.metamask_accepts MetaMask
                                       (initial ∅))))
     = Some Examples.alice_address
  /\ currentSubsriber (final (connect Examples.metamask_accepts MetaMask (initial ∅)))
     = Some 7%nat.
Proof.
  pose proof (connect_stores_account Examples.metamask_accepts MetaMask (initial ∅)
                Examples.alice "0" "x71C7656EC7ab88b098defB751B7401B5f6d8976F"
                eq_refl eq_refl eq_refl) as (E & Hl & Ht & _).
  split; [ exact Hl | split; [ exact Ht | ] ].
  rewrite E. reflexivity.
Defined.

(** An account whose address is the empty string is announced but not kept:
    the connected toast is shown with an empty abbreviation, the account and
    the storage stay as they were, and the subscription is made all the
    same. *)
Theorem connect_empty_address (env : WalletEnv) (provider : IProviders)
    (st : State) (info : AccountInfo) :
  initWalletConnect env provider = Returned true ->
  getAccount env = Returned info ->
  address info = Some EmptyString ->
  final (connect env provider st)
    = mkState (account st) (Some (subscribe env)) (pricePerToken st) (isMinting st)
        (localStorage st)
  /\ In (Notify (Text "Wallet connected: ...") (Some success) None None)
        (events (connect env provider st))
  /\ In EventSubscribe (events (connect env provider st))
  /\ (forall a, ~ In (SetAccount a) (events (connect env provider st))).
Proof.
  intros Hi Hg Had. unfold connect. unfold_run.
  destruct provider; [ destruct (window_ethereum env) | ]; cbn;
    rewrite Hi; cbn; rewrite Hg; cbn; rewrite Had; cbn;
    (repeat split; try tauto; intros a H; close_cases).
Qed.

Lemma connect_empty_address_witness :
  In (Notify (Text "Wallet connected: ...") (Some success) None None)
     (events (connect (mkWalletEnv true (fun _ => Returned true)
                         (Returned (mkAccountInfo (Some EmptyString) None None)) 7%nat)
                WalletConnect (initial ∅)))
  /\ In EventSubscribe
        (events (connect (mkWalletEnv true (fun _ => Returned true)
                            (Returned (mkAccountInfo (Some EmptyString) None None)) 7%nat)
                   WalletConnect (initial ∅))).
Proof.
  pose proof (connect_empty_address
                (mkWalletEnv true (fun _ => Returned true)
                   (Returned (mkAccountInfo (Some EmptyString) None None)) 7%nat)
                WalletConnect (initial ∅) (mkAccountInfo (Some EmptyString) None None)
                eq_refl eq_refl eq_refl) as (_ & Hn & Hs & _).
  split; assumption.
Defined.

(** An account without address makes the toast text throw: the TypeError is
    caught and logged, no toast is shown, no subscription is made and the
    state is as before. *)
Theorem connect_missing_address (env : WalletEnv) (provider : IProviders)
    (st : State) (info : AccountInfo) :
  initWalletConnect env provider = Returned true ->
  getAccount env = Returned info ->
  address info = None ->
  final (connect env provider st) = st
  /\ outcome (connect env provider st) = Returned tt
  /\ (exists msg, In (ConsoleLog (TypeError msg)) (events (connect env provider st)))
  /\ existsb is_success_notification (events (connect env provider st)) = false
  /\ ~ In EventSubscribe (events (connect env provider st)).
Proof.
  intros Hi Hg Had. unfold connect. unfold_run.
  destruct provider; [ destruct (window_ethereum env) | ]; cbn;
    rewrite Hi; cbn; rewrite Hg; cbn; rewrite Had; cbn;
    (repeat split; try tauto; try (eexists; tauto); intros H; close_cases).
Qed.

Lemma connect_missing_address_witness :
  final (connect (mkWalletEnv true (fun _ => Returned true) (Returned empty_object) 7%nat)
           MetaMask Examples.connected) = Examples.connected
  /\ outcome (connect (mkWalletEnv true (fun _ => Returned true) (Returned empty_object)
                         7%nat) MetaMask Examples.connected) = Returned tt.
Proof.
  pose proof (connect_missing_address
                (mkWalletEnv true (fun _ => Returned true) (Returned empty_object) 7%nat)
                MetaMask Examples.connected empty_object eq_refl eq_refl eq_refl)
    as (Hf & Ho & _).
  split; assumption.
Defined.

(** ** disconnect *)

(** disconnect removes the provider type and nothing else from the storage,
    clears the account so that mint asks to connect again, and keeps the
    price, the flag and the subscription handle. *)
Theorem disconnect_clears_account_only (sub : option Subscription) (st : State)
    (price : JsNumber.number) (env : MintEnv) (amt : JsNumber.number) (st' : State) :
  localStorage (final (disconnect sub st)) !! "providerType"%string = None
  /\ (forall key : string, key <> "providerType"%string ->
        localStorage (final (disconnect sub st)) !! key = localStorage st !! key)
  /\ currentSubsriber (final (disconnect sub st)) = currentSubsriber st
  /\ pricePerToken (final (disconnect sub st)) = pricePerToken st
  /\ isMinting (final (disconnect sub st)) = isMinting st
  /\ events (mint (account (final (disconnect sub st))) price env amt st')
     = [Notify (Text "Please connect your wallet!") None None None].
Proof.
  unfold disconnect. unfold_run. destruct sub; cbn;
    (repeat split; [ apply lookup_delete_eq | ]);
    intros key Hk; now apply lookup_delete_ne.
Qed.

(** A second disconnect finds nothing left to do to the state, and repeats
    the calls of the first, unsubscribing the same handle again. *)
Theorem disconnect_idempotent (sub : option Subscription) (st : State) :
  final (disconnect sub (final (disconnect sub st))) = final (disconnect sub st)
  /\ events (disconnect sub (final (disconnect sub st))) = events (disconnect sub st).
Proof.
  unfold disconnect. unfold_run. destruct sub; cbn;
    rewrite delete_delete_eq; split; reflexivity.
Qed.

(** disconnect, called in the render that follows a successful connect,
    unsubscribes the subscription that connect made, and puts the storage
    back without provider type: a storage that had none is as it was. *)
Theorem connect_then_disconnect (env : WalletEnv) (provider : IProviders)
    (st : State) (info : AccountInfo) (c : ascii) (s : string) :
  initWalletConnect env provider = Returned true ->
  getAccount env = Returned info ->
  address info = Some (String c s) ->
  events (disconnect (currentSubsriber (final (connect env provider st)))
            (final (connect env provider st)))
    = [SetAccount empty_object; Unsubscribe (subscribe env); ResetConnect]
  /\ localStorage (final (disconnect (currentSubsriber (final (connect env provider st)))
                            (final (connect env provider st))))
     = delete "providerType"%string (localStorage st)
  /\ (localStorage st !! "providerType"%string = None ->
      localStorage (final (disconnect (currentSubsriber (final (connect env provider st)))
                             (final (connect env provider st))))
      = localStorage st).
Proof.
  intros Hi Hg Had.
  assert (E : final (connect env provider st)
    = mkState (Some info) (Some (subscribe env)) (pricePerToken st) (isMinting st)
        (<["providerType"%string := default "undefined"%string (type info)]>
           (localStorage st))).
  { unfold connect. unfold_run.
    destruct provider; [ destruct (window_ethereum env) | ]; cbn;
      rewrite Hi; cbn; rewrite Hg; cbn; rewrite Had; cbn; reflexivity. }
  rewrite E. unfold disconnect. unfold_run.
  rewrite delete_insert_eq. repeat split.
  intros Hn. now apply delete_id.
Qed.

Lemma connect_then_disconnect_witness :
  events (disconnect
            (currentSubsriber (final (connect Examples.metamask_accepts MetaMask
                                        (initial ∅))))
            (final (connect Examples.metamask_accepts MetaMask (initial ∅))))
  = [SetAccount empty_object; Unsubscribe 7%nat; ResetConnect]
  /\ localStorage
       (final (disconnect
                 (currentSubsriber (final (connect Examples.metamask_accepts MetaMask
                                             (initial ∅))))
                 (final (connect Examples.metamask_accepts MetaMask (initial ∅)))))
     = delete "providerType"%string (localStorage (initial ∅)).
Proof.
  pose proof (connect_then_disconnect Examples.metamask_accepts MetaMask (initial ∅)
                Examples.alice "0" "x71C7656EC7ab88b098defB751B7401B5f6d8976F"
                eq_refl eq_refl eq_refl) as (He & Hl & _).
  split; assumption.
Defined.

(** ** The handlers of the subscription *)

(** An error without code, or with a code other than the number 4, is only
    written to the console: no toast, no reset of the connection, and the
    state is as before. *)
Theorem subscriberError_other_codes_are_logged (chainName : string) (err : WalletError)
    (st : State) :
  code err = None \/ (exists c, code err = Some c /\ (c =? 4)%float = false) ->
  events (subscriberError chainName err st) = [ConsoleError err]
  /\ final (subscriberError chainName err st) = st
  /\ outcome (subscriberError chainName err st) = Returned tt.
Proof.
  intros [Hc | (c & Hc & H4)]; unfold subscriberError; unfold_run; rewrite Hc; cbn;
    rewrite ?H4; cbn; repeat split.
Qed.

Lemma subscriberError_other_codes_are_logged_witness :
  events (subscriberError "Polygon Mainnet" Examples.user_rejected Examples.connected)
  = [ConsoleError Examples.user_rejected]
  /\ final (subscriberError "Polygon Mainnet" Examples.user_rejected Examples.connected)
     = Examples.connected
  /\ outcome (subscriberError "Polygon Mainnet" Examples.user_rejected Examples.connected)
     = Returned tt.
Proof.
  apply (subscriberError_other_codes_are_logged "Polygon Mainnet" Examples.user_rejected
           Examples.connected).
  right. exists 4001%float. split; reflexivity.
Defined.

(** An accountsChanged event replaces the account by the event's data and
    shows the abbreviated new address; the other cells are untouched, and a
    mint of the next render sends its buy transaction from the new address. *)
Theorem subscriberSuccess_switches_account (data : AccountInfo) (a : string)
    (st : State) (price : JsNumber.number) (env : MintEnv) (amt : JsNumber.number)
    (st' : State) :
  name data = Some "accountsChanged"%string ->
  address data = Some a ->
  final (subscriberSuccess data st)
    = mkState (Some data) (currentSubsriber st) (pricePerToken st) (isMinting st)
        (localStorage st)
  /\ events (subscriberSuccess data st)
     = [SetAccount data;
        Notify (Text ("Wallet changed: " +:+ slice_0_5 a +:+ "..." +:+ slice_m5 a))
          None None None]
  /\ (forall n f v,
        In (Send_buy n f v)
           (events (mint (account (final (subscriberSuccess data st))) price env amt st')) ->
        f = a).
Proof.
  intros Hn Ha.
  assert (E : final (subscriberSuccess data st)
    = mkState (Some data) (currentSubsriber st) (pricePerToken st) (isMinting st)
        (localStorage st)
    /\ events (subscriberSuccess data st)
       = [SetAccount data;
          Notify (Text ("Wallet changed: " +:+ slice_0_5 a +:+ "..." +:+ slice_m5 a))
            None None None]).
  { unfold subscriberSuccess. rewrite Hn. unfold_run. rewrite Ha. cbn. split; reflexivity. }
  destruct E as [E Ev]. rewrite E, Ev. repeat split.
  intros n f v Hin. cbn [account] in Hin.
  apply mint_buy_inv in Hin as (_ & Ht & _).
  unfold truthy_address in Ht. rewrite Ha in Ht. destruct a; congruence.
Qed.

Lemma subscriberSuccess_switches_account_witness :
  final (subscriberSuccess Examples.accounts_changed Examples.connected)
  = mkState (Some Examples.accounts_changed) (currentSubsriber Examples.connected)
      (pricePerToken Examples.connected) (isMinting Examples.connected)
      (localStorage Examples.connected)
  /\ events (subscriberSuccess Examples.accounts_changed Examples.connected)
     = [SetAccount Examples.accounts_changed;
        Notify (Text "Wallet changed: 0x2B5...CD6cF") None None None].
Proof.
  pose proof (subscriberSuccess_switches_account Examples.accounts_changed
                Examples.bob_address Examples.connected Examples.price_0_1
                (Examples.answers false 100 10 5) 1%float (initial ∅)
                eq_refl eq_refl) as (Hf & He & _).
  split; assumption.
Defined.

(** An accountsChanged event without address still replaces the account,
    and then the handler throws while it builds the toast: no toast is
    shown. *)
Theorem subscriberSuccess_without_address (data : AccountInfo) (st : State) :
  name data = Some "accountsChanged"%string ->
  address data = None ->
  account (final (subscriberSuccess data st)) = Some data
  /\ (exists msg, outcome (subscriberSuccess data st) = Thrown (TypeError msg))
  /\ existsb is_notification (events (subscriberSuccess data st)) = false.
Proof.
  intros Hn Ha. unfold subscriberSuccess. rewrite Hn. unfold_run. rewrite Ha. cbn.
  repeat split. eexists. reflexivity.
Qed.

Lemma subscriberSuccess_without_address_witness :
  account (final (subscriberSuccess
                    (mkAccountInfo None None (Some "accountsChanged"%string))
                    Examples.connected))
  = Some (mkAccountInfo None None (Some "accountsChanged"%string))
  /\ existsb is_notification
       (events (subscriberSuccess
                  (mkAccountInfo None None (Some "accountsChanged"%string))
                  Examples.connected)) = false.
Proof.
  pose proof (subscriberSuccess_without_address
                (mkAccountInfo None None (Some "accountsChanged"%string))
                Examples.connected eq_refl eq_refl) as (Hf & _ & Hn).
  split; assumption.
Defined.

(** Every other event of the subscription is ignored: nothing is called and
    the state is as before. *)
Theorem subscriberSuccess_ignores_other_events (data : AccountInfo) (st : State) :
  name data <> Some "accountsChanged"%string ->
  events (subscriberSuccess data st) = []
  /\ final (subscriberSuccess data st) = st
  /\ outcome (subscriberSuccess data st) = Returned tt.
Proof.
  intros Hn. unfold subscriberSuccess.
  destruct (name data) as [nm | ]; [ | repeat split ].
  repeat (match goal with
          | |- context [match ?x with _ => _ end] => is_var x; destruct x
          end; try (repeat split; fail)).
  now destruct Hn.
Qed.

Lemma subscriberSuccess_ignores_other_events_witness :
  events (subscriberSuccess (mkAccountInfo (Some Examples.bob_address) None
                               (Some "chainChanged"%string)) Examples.connected) = []
  /\ final (subscriberSuccess (mkAccountInfo (Some Examples.bob_address) None
                                 (Some "chainChanged"%string)) Examples.connected)
     = Examples.connected
  /\ outcome (subscriberSuccess (mkAccountInfo (Some Examples.bob_address) None
                                   (Some "chainChanged"%string)) Examples.connected)
     = Returned tt.
Proof.
  apply (subscriberSuccess_ignores_other_events
           (mkAccountInfo (Some Examples.bob_address) None (Some "chainChanged"%string))
           Examples.connected).
  discriminate.
Defined.
